(** * On-chain document signer: a shallow embedding of [app.py]

    The development models the interaction core of the application: document
    fingerprinting ([hash_document], [upload_to_ipfs]), the transaction
    orchestration ([create_signing_contract], [sign_document]), the status
    reconciliation ([get_contract_status]) and the directory query
    ([get_user_contracts]), together with the two user-interface handlers that
    feed them.

    Conventions.
    - A Python [str] is the list of its Unicode code points ([list N]);
      [py "text"] writes a literal.
    - A Python [bytes] value is a [list byte].
    - Python integers are [Z].
    - Effects (RPC calls, logging, widgets) are threaded through an explicit
      state carrying the chain and a chronological trace of events; exceptions
      are the left summand of the result. *)

From Stdlib Require Import String Ascii DecimalString.
From Stdlib.Strings Require Import Byte.
From Stdlib Require Import ZArith NArith Bool List Lia.
Import ListNotations.

Set Implicit Arguments.

(* ===================================================================== *)
(** * Python values: strings, bytes, indexing                             *)
(* ===================================================================== *)

Module Py.

Definition str := list N.
Definition bytes := list byte.

(** A string literal, one code point per character. *)
Definition py (s : string) : str :=
  map N_of_ascii (list_ascii_of_string s).

Definition str_eq_dec : forall a b : str, {a = b} + {a <> b} :=
  list_eq_dec N.eq_dec.

Definition str_eqb (a b : str) : bool :=
  if str_eq_dec a b then true else false.

(** [str.isspace] on one code point (CPython's [_PyUnicode_IsWhitespace]). *)
Definition isspace (c : N) : bool :=
  ((9 <=? c) && (c <=? 13) || (28 <=? c) && (c <=? 32)
   || (c =? 0x85) || (c =? 0xA0) || (c =? 0x1680)
   || (0x2000 <=? c) && (c <=? 0x200A)
   || (c =? 0x2028) || (c =? 0x2029) || (c =? 0x202F)
   || (c =? 0x205F) || (c =? 0x3000))%N.

(** [s.lstrip()], [s.rstrip()] and [s.strip()] with no argument. *)
Fixpoint lstrip (s : str) : str :=
  match s with
  | c :: s' => if isspace c then lstrip s' else s
  | [] => []
  end.

Definition rstrip (s : str) : str := rev (lstrip (rev s)).

Definition strip (s : str) : str := rstrip (lstrip s).

(** Truth value of a string: a string is false exactly when it is empty. *)
Definition truthy (s : str) : bool :=
  match s with [] => false | _ :: _ => true end.

(** [s[:n]] for a non-negative literal bound [n]. *)
Definition slice_to {A} (n : nat) (s : list A) : list A := firstn n s.

(** [str(i)] for an integer. *)
Definition str_of_int (z : Z) : str :=
  py (NilZero.string_of_int (Z.to_int z)).

(** [l[i]] on a list or tuple: negative indices count from the end, and an
    index outside [-len, len) raises [IndexError] (here [None]). *)
Definition getitem {A} (l : list A) (i : Z) : option A :=
  let n := Z.of_nat (length l) in
  if (0 <=? i)%Z then nth_error l (Z.to_nat i)
  else if (- n <=? i)%Z then nth_error l (Z.to_nat (n + i))
  else None.

End Py.
Import Py.

(** Insertion-ordered dictionaries, as far as [dict.fromkeys] and [list(d)]
    need them: an association list without repeated keys, new keys appended
    at the end, an existing key keeping its position. *)
Module Dict.

Section WithKey.

Variables K V : Type.
Variable K_eq_dec : forall a b : K, {a = b} + {a <> b}.

Definition dict := list (K * V).

(** [d[k] = v] *)
Fixpoint setitem (d : dict) (k : K) (v : V) : dict :=
  match d with
  | (k', v') :: d' =>
      if K_eq_dec k' k then (k', v) :: d' else (k', v') :: setitem d' k v
  | [] => [(k, v)]
  end.

(** [dict.fromkeys(iterable, v)] *)
Definition fromkeys (ks : list K) (v : V) : dict :=
  fold_left (fun d k => setitem d k v) ks [].

(** [list(d)] *)
Definition keys (d : dict) : list K := map fst d.

End WithKey.

End Dict.

(* ===================================================================== *)
(** * hashlib: MD5 (RFC 1321) and SHA-256 (FIPS 180-4)                    *)
(* ===================================================================== *)

Module Hashlib.

Local Open Scope Z_scope.

Definition w32 (x : Z) : Z := x mod 2 ^ 32.

Definition rotl (n x : Z) : Z :=
  w32 (Z.lor (Z.shiftl x n) (Z.shiftr x (32 - n))).

Definition rotr (n x : Z) : Z :=
  w32 (Z.lor (Z.shiftr x n) (Z.shiftl x (32 - n))).

Definition not32 (x : Z) : Z := Z.lxor x 0xffffffff.

Definition byte_of_Z (x : Z) : byte :=
  match Byte.of_N (Z.to_N (x mod 256)) with
  | Some b => b
  | None => x00
  end.

Definition Z_of_byte (b : byte) : Z := Z.of_N (Byte.to_N b).

(** Four bytes of a 32-bit word, most and least significant first. *)
Definition be32 (x : Z) : bytes :=
  [byte_of_Z (Z.shiftr x 24); byte_of_Z (Z.shiftr x 16);
   byte_of_Z (Z.shiftr x 8); byte_of_Z x].

Definition le32 (x : Z) : bytes := rev (be32 x).

Definition be64 (x : Z) : bytes := be32 (Z.shiftr x 32) ++ be32 x.

Definition le64 (x : Z) : bytes := rev (be64 x).

Definition word_be (bs : bytes) : Z :=
  fold_left (fun acc b => acc * 256 + Z_of_byte b) bs 0.

Definition word_le (bs : bytes) : Z := word_be (rev bs).

(** The words of a block, four bytes each. *)
Fixpoint words (rd : bytes -> Z) (n : nat) (bs : bytes) : list Z :=
  match n with
  | O => []
  | S n' => rd (firstn 4 bs) :: words rd n' (skipn 4 bs)
  end.

(** Message padding: a [0x80] byte, zeros up to 56 modulo 64, then the bit
    length on eight bytes. *)
Definition pad (len64 : Z -> bytes) (msg : bytes) : bytes :=
  let l := Z.of_nat (length msg) in
  let zeros := Z.to_nat ((55 - l) mod 64) in
  msg ++ [x80] ++ repeat x00 zeros ++ len64 ((8 * l) mod 2 ^ 64).

(** The 64-byte blocks of a padded message. *)
Fixpoint blocks (n : nat) (bs : bytes) : list bytes :=
  match n with
  | O => []
  | S n' => firstn 64 bs :: blocks n' (skipn 64 bs)
  end.

Definition blocks_of (bs : bytes) : list bytes :=
  blocks (Nat.div (length bs) 64) bs.

(** ** SHA-256 *)

(** The first sixty-four primes. *)
Definition primes : list Z :=
  [2; 3; 5; 7; 11; 13; 17; 19; 23; 29; 31; 37; 41; 43; 47; 53; 59; 61; 67;
   71; 73; 79; 83; 89; 97; 101; 103; 107; 109; 113; 127; 131; 137; 139; 149;
   151; 157; 163; 167; 173; 179; 181; 191; 193; 197; 199; 211; 223; 227; 229;
   233; 239; 241; 251; 257; 263; 269; 271; 277; 281; 283; 293; 307; 311].

(** Integer cube root of a number below [2 ^ 108], bit by bit from the top. *)
Definition icbrt (n : Z) : Z :=
  fold_left
    (fun x b => let y := x + 2 ^ Z.of_nat b in if y ^ 3 <=? n then y else x)
    (rev (seq 0 36)) 0.

(** Round constants: the first thirty-two bits of the fractional parts of the
    cube roots of the primes. *)
Definition K256 : list Z :=
  Eval vm_compute in map (fun p => w32 (icbrt (p * 2 ^ 96))) primes.

Record state256 := St256 { ha : Z; hb : Z; hc : Z; hd : Z;
                           he : Z; hf : Z; hg : Z; hh : Z }.

(** Initial state: the first thirty-two bits of the fractional parts of the
    square roots of the first eight primes. *)
Definition frac_sqrt (p : Z) : Z := w32 (Z.sqrt (p * 2 ^ 64)).

Definition init256 : state256 :=
  Eval vm_compute in
    St256 (frac_sqrt 2) (frac_sqrt 3) (frac_sqrt 5) (frac_sqrt 7)
          (frac_sqrt 11) (frac_sqrt 13) (frac_sqrt 17) (frac_sqrt 19).

Definition ssig0 (x : Z) :=
  Z.lxor (Z.lxor (rotr 7 x) (rotr 18 x)) (Z.shiftr x 3).
Definition ssig1 (x : Z) :=
  Z.lxor (Z.lxor (rotr 17 x) (rotr 19 x)) (Z.shiftr x 10).
Definition bsig0 (x : Z) :=
  Z.lxor (Z.lxor (rotr 2 x) (rotr 13 x)) (rotr 22 x).
Definition bsig1 (x : Z) :=
  Z.lxor (Z.lxor (rotr 6 x) (rotr 11 x)) (rotr 25 x).
Definition ch (x y z : Z) := Z.lxor (Z.land x y) (Z.land (not32 x) z).
Definition maj (x y z : Z) :=
  Z.lxor (Z.lxor (Z.land x y) (Z.land x z)) (Z.land y z).

(** Message schedule: sixteen block words extended to sixty-four. *)
Fixpoint schedule (fuel : nat) (ws : list Z) : list Z :=
  match fuel with
  | O => ws
  | S fuel' =>
      let i := length ws in
      let w := w32 (ssig1 (nth (i - 2) ws 0) + nth (i - 7) ws 0
                    + ssig0 (nth (i - 15) ws 0) + nth (i - 16) ws 0) in
      schedule fuel' (ws ++ [w])
  end.

Definition round256 (s : state256) (kw : Z * Z) : state256 :=
  let t1 := w32 (hh s + bsig1 (he s) + ch (he s) (hf s) (hg s)
                 + fst kw + snd kw) in
  let t2 := w32 (bsig0 (ha s) + maj (ha s) (hb s) (hc s)) in
  St256 (w32 (t1 + t2)) (ha s) (hb s) (hc s)
        (w32 (hd s + t1)) (he s) (hf s) (hg s).

Definition compress256 (s : state256) (block : bytes) : state256 :=
  let ws := schedule 48 (words word_be 16 block) in
  let r := fold_left round256 (combine K256 ws) s in
  St256 (w32 (ha s + ha r)) (w32 (hb s + hb r)) (w32 (hc s + hc r))
        (w32 (hd s + hd r)) (w32 (he s + he r)) (w32 (hf s + hf r))
        (w32 (hg s + hg r)) (w32 (hh s + hh r)).

Definition sha256_digest (msg : bytes) : bytes :=
  let s := fold_left compress256 (blocks_of (pad be64 msg)) init256 in
  be32 (ha s) ++ be32 (hb s) ++ be32 (hc s) ++ be32 (hd s)
  ++ be32 (he s) ++ be32 (hf s) ++ be32 (hg s) ++ be32 (hh s).

(** ** MD5 *)

Definition T5 : list Z :=
  [0xd76aa478; 0xe8c7b756; 0x242070db; 0xc1bdceee; 0xf57c0faf; 0x4787c62a;
   0xa8304613; 0xfd469501; 0x698098d8; 0x8b44f7af; 0xffff5bb1; 0x895cd7be;
   0x6b901122; 0xfd987193; 0xa679438e; 0x49b40821; 0xf61e2562; 0xc040b340;
   0x265e5a51; 0xe9b6c7aa; 0xd62f105d; 0x02441453; 0xd8a1e681; 0xe7d3fbc8;
   0x21e1cde6; 0xc33707d6; 0xf4d50d87; 0x455a14ed; 0xa9e3e905; 0xfcefa3f8;
   0x676f02d9; 0x8d2a4c8a; 0xfffa3942; 0x8771f681; 0x6d9d6122; 0xfde5380c;
   0xa4beea44; 0x4bdecfa9; 0xf6bb4b60; 0xbebfbc70; 0x289b7ec6; 0xeaa127fa;
   0xd4ef3085; 0x04881d05; 0xd9d4d039; 0xe6db99e5; 0x1fa27cf8; 0xc4ac5665;
   0xf4292244; 0x432aff97; 0xab9423a7; 0xfc93a039; 0x655b59c3; 0x8f0ccc92;
   0xffeff47d; 0x85845dd1; 0x6fa87e4f; 0xfe2ce6e0; 0xa3014314; 0x4e0811a1;
   0xf7537e82; 0xbd3af235; 0x2ad7d2bb; 0xeb86d391].

Definition S5 : list Z :=
  [7; 12; 17; 22; 7; 12; 17; 22; 7; 12; 17; 22; 7; 12; 17; 22;
   5; 9; 14; 20; 5; 9; 14; 20; 5; 9; 14; 20; 5; 9; 14; 20;
   4; 11; 16; 23; 4; 11; 16; 23; 4; 11; 16; 23; 4; 11; 16; 23;
   6; 10; 15; 21; 6; 10; 15; 21; 6; 10; 15; 21; 6; 10; 15; 21].

Record state5 := St5 { ma : Z; mb : Z; mc : Z; md : Z }.

Definition init5 : state5 :=
  St5 0x67452301 0xefcdab89 0x98badcfe 0x10325476.

Definition round5 (m : list Z) (s : state5) (i : nat) : state5 :=
  let iz := Z.of_nat i in
  let '(f, g) :=
    if iz <? 16 then
      (Z.lor (Z.land (mb s) (mc s)) (Z.land (not32 (mb s)) (md s)), iz)
    else if iz <? 32 then
      (Z.lor (Z.land (md s) (mb s)) (Z.land (not32 (md s)) (mc s)),
       (5 * iz + 1) mod 16)
    else if iz <? 48 then
      (Z.lxor (Z.lxor (mb s) (mc s)) (md s), (3 * iz + 5) mod 16)
    else
      (Z.lxor (mc s) (Z.lor (mb s) (not32 (md s))), (7 * iz) mod 16) in
  let f' := w32 (f + ma s + nth i T5 0 + nth (Z.to_nat g) m 0) in
  St5 (md s) (w32 (mb s + rotl (nth i S5 0) f')) (mb s) (mc s).

Definition compress5 (s : state5) (block : bytes) : state5 :=
  let m := words word_le 16 block in
  let r := fold_left (round5 m) (seq 0 64) s in
  St5 (w32 (ma s + ma r)) (w32 (mb s + mb r))
      (w32 (mc s + mc r)) (w32 (md s + md r)).

Definition md5_digest (msg : bytes) : bytes :=
  let s := fold_left compress5 (blocks_of (pad le64 msg)) init5 in
  le32 (ma s) ++ le32 (mb s) ++ le32 (mc s) ++ le32 (md s).

(** ** Hash objects

    A hash object accumulates the bytes fed to it; [hexdigest] renders the
    digest of everything fed so far in lowercase hexadecimal. *)

Inductive algorithm := SHA256 | MD5.

Record hash_object := HashObject { algo : algorithm; fed : bytes }.

Definition sha256 : hash_object := HashObject SHA256 [].

Definition md5 (data : bytes) : hash_object := HashObject MD5 data.

Definition update (h : hash_object) (data : bytes) : hash_object :=
  HashObject (algo h) (fed h ++ data).

Definition digest (h : hash_object) : bytes :=
  match algo h with
  | SHA256 => sha256_digest (fed h)
  | MD5 => md5_digest (fed h)
  end.

Definition hexdigit (n : N) : N :=
  if (n <? 10)%N then (48 + n)%N else (87 + n)%N.

Definition hex_of_byte (b : byte) : str :=
  let n := Byte.to_N b in [hexdigit (n / 16)%N; hexdigit (n mod 16)%N].

Definition hexlify (bs : bytes) : str := flat_map hex_of_byte bs.

Definition hexdigest (h : hash_object) : str := hexlify (digest h).

End Hashlib.

(* ===================================================================== *)
(** * Document fingerprinting                                             *)
(* ===================================================================== *)

(** [hash_document]: a fresh SHA-256 object is fed the file bytes. *)
Definition hash_document (file_bytes : bytes) : str :=
  let sha256 := Hashlib.sha256 in
  let sha256 := Hashlib.update sha256 file_bytes in
  py "0x" ++ Hashlib.hexdigest sha256.

(** [upload_to_ipfs]: the mock content identifier. *)
Definition upload_to_ipfs (file_bytes : bytes) (filename : str) : str :=
  let file_hash := Hashlib.hexdigest (Hashlib.md5 file_bytes) in
  py "Qm" ++ slice_to 44 file_hash.

(* ===================================================================== *)
(** * Exceptions, configuration and the web3 interface                    *)
(* ===================================================================== *)

(** Exceptions.  Every exception of the model is an instance of Python's
    [Exception]: the ones the application raises itself ([ValueError]), the
    ones indexing raises ([IndexError]) and whatever web3 and eth_account
    raise ([Web3Exception]).  [exn_str] is [str(e)]. *)
Inductive exn :=
| ValueError (msg : str)
| IndexError (msg : str)
| Web3Exception (msg : str).

Definition exn_str (e : exn) : str :=
  match e with
  | ValueError msg | IndexError msg | Web3Exception msg => msg
  end.

Definition result (A : Type) : Type := (exn + A)%type.

(** Values decoded from contract calls that the application only stores or
    indexes. *)
#[warnings="-register-all"]
Inductive pyval :=
| PStr (s : str)
| PInt (z : Z)
| PBool (b : bool)
| PBytes (b : bytes)
| PTuple (items : list pyval).

(** [Config]: the fields [load_config] sets.  [factory_address] is the value
    of an environment variable and may be absent. *)
Record Config := {
  environment : str;
  rpc_url : str;
  chain_id : Z;
  factory_address : option str
}.

(** Truth value of [config.factory_address]: [None] and the empty string are
    false. *)
Definition configured (a : option str) : bool :=
  match a with
  | Some s => truthy s
  | None => false
  end.

Inductive abi := FACTORY_ABI | SIGNER_ABI.

(** [w3.eth.contract(address=..., abi=...)] *)
Record contract := Contract { address : str; contract_abi : abi }.

(** The two state-changing contract functions the application invokes. *)
Inductive contract_function :=
| createSigningContract (document_hash ipfs_cid : str)
    (required_signers : list str) (sequential_signing : bool)
    (title description : str)
| signDocument (metadata : str).

(** The dictionary handed to [build_transaction]. *)
Record tx_params := {
  tx_from : str;
  tx_nonce : Z;
  tx_gas : Z;
  tx_gasPrice : Z
}.

(** Arguments of a decoded [ContractCreated] event. *)
Record ContractCreated := { contractAddress : str }.

(** The web3 / eth_account interface.  Local computations are functions that
    may raise; everything that talks to the node takes and returns the state
    of the chain as the node presents it, so successive calls may observe
    different states. *)
Class Web3 := {
  World : Type;
  Txn : Type;
  SignedTxn : Type;
  TxHash : Type;
  Log : Type;
  (** [Account.from_key(private_key).address] *)
  Account_from_key : str -> result str;
  (** address validation of [w3.eth.contract] *)
  eth_contract : str -> abi -> result contract;
  (** argument validation of [contract.functions.f(...)] *)
  functions : contract -> contract_function -> result unit;
  eth_get_transaction_count : str -> World -> result Z * World;
  build_transaction :
    contract -> contract_function -> tx_params -> World -> result Txn * World;
  sign_transaction : Txn -> str -> result SignedTxn;
  send_raw_transaction : SignedTxn -> World -> result TxHash * World;
  (** the [logs] of the receipt *)
  wait_for_transaction_receipt : TxHash -> World -> result (list Log) * World;
  (** [factory.events.ContractCreated().processLog(log).args] *)
  processLog : contract -> Log -> result ContractCreated;
  tx_hash_hex : TxHash -> str;
  (** signer contract getters, [.call()] included *)
  getSignatures : contract -> World -> result (list pyval) * World;
  isFullySigned : contract -> World -> result bool * World;
  getRequiredSigners : contract -> World -> result (list str) * World;
  getSigningProgress : contract -> World -> result (Z * Z) * World;
  status : contract -> World -> result Z * World;
  documentHash : contract -> World -> result pyval * World;
  ipfsCid : contract -> World -> result pyval * World;
  (** factory getters *)
  getContractsByInitiator :
    contract -> str -> World -> result (list str) * World;
  getContractInfo : contract -> str -> World -> result (list pyval) * World
}.

(** [w3.to_wei('20', 'gwei')] *)
Definition to_wei_gwei (n : Z) : Z := (n * 1000000000)%Z.

(* ===================================================================== *)
(** * Effects: chain state, session state and the event trace             *)
(* ===================================================================== *)

Inductive level := ERROR | WARNING.

Inductive widget := st_error | st_success | st_info.

(** Calls to the node and to the signer, in the order the program makes
    them. *)
Inductive web3_op :=
| op_get_transaction_count (account : str)
| op_build_transaction (c : contract) (f : contract_function) (p : tx_params)
| op_sign_transaction
| op_send_raw_transaction
| op_wait_for_transaction_receipt
| op_call (c : contract) (getter : str).

Inductive event :=
| Logged (lvl : level) (msg : str)
| Called (op : web3_op)
| Shown (w : widget) (msg : str).

Section Program.

Context {W3 : Web3}.
Variable config : Config.

(** The process state an operation can touch: the chain behind the RPC
    endpoint and [st.session_state.last_contract]. *)
Record state := { chain : World; last_contract : option str }.

Definition set_chain (s : state) (w : World) : state :=
  {| chain := w; last_contract := last_contract s |}.

Definition set_last_contract (s : state) (a : str) : state :=
  {| chain := chain s; last_contract := Some a |}.

(** A computation returns a value or raises, leaves a state, and emits the
    events it performed, oldest first. *)
Definition M (A : Type) : Type := state -> result A * state * list event.

Definition ret {A} (a : A) : M A := fun s => (inr a, s, []).

Definition raise {A} (e : exn) : M A := fun s => (inl e, s, []).

Definition bind {A B} (m : M A) (k : A -> M B) : M B :=
  fun s =>
    match m s with
    | (inr a, s1, ev1) =>
        let '(r, s2, ev2) := k a s1 in (r, s2, ev1 ++ ev2)
    | (inl e, s1, ev1) => (inl e, s1, ev1)
    end.

(** [try: m except Exception as e: h e] *)
Definition try_except {A} (m : M A) (h : exn -> M A) : M A :=
  fun s =>
    match m s with
    | (inl e, s1, ev1) =>
        let '(r, s2, ev2) := h e s1 in (r, s2, ev1 ++ ev2)
    | (inr a, s1, ev1) => (inr a, s1, ev1)
    end.

Definition emit (ev : event) : M unit := fun s => (inr tt, s, [ev]).

(** A local computation that may raise. *)
Definition lift {A} (r : result A) : M A := fun s => (r, s, []).

(** A call that reaches the node. *)
Definition rpc {A} (op : web3_op) (f : World -> result A * World) : M A :=
  fun s => let '(r, w) := f (chain s) in (r, set_chain s w, [Called op]).

(** A local web3 computation recorded in the trace. *)
Definition local {A} (op : web3_op) (r : result A) : M A :=
  fun s => (r, s, [Called op]).

Notation "x <- m ;; k" := (bind m (fun x => k))
  (at level 61, m at next level, right associativity).
Notation "m ;;; k" := (bind m (fun _ => k))
  (at level 61, right associativity).

Definition log_error (msg : str) : M unit := emit (Logged ERROR msg).
Definition log_warning (msg : str) : M unit := emit (Logged WARNING msg).
Definition show (w : widget) (msg : str) : M unit := emit (Shown w msg).

(** [t[i]] on a decoded tuple. *)
Definition index (t : list pyval) (i : Z) : M pyval :=
  match getitem t i with
  | Some v => ret v
  | None => raise (IndexError (py "tuple index out of range"))
  end.

(* --------------------------------------------------------------------- *)
(** ** Transaction orchestration                                          *)
(* --------------------------------------------------------------------- *)

(** The loop over [tx_receipt.logs] and the [raise] that follows it: the
    first log that decodes returns; a log whose decoding raises is skipped. *)
Fixpoint scan_logs (factory : contract) (logs : list Log) : M str :=
  match logs with
  | log :: rest =>
      match processLog factory log with
      | inr decoded_log => ret (contractAddress decoded_log)
      | inl _ => scan_logs factory rest
      end
  | [] =>
      raise (ValueError
        (py "Could not find ContractCreated event in transaction receipt"))
  end.

(** The body of [create_signing_contract] up to and including the wait for
    the receipt. *)
Definition submit_creation (document_hash ipfs_cid : str)
    (required_signers : list str) (private_key : str)
    (title description : str) (sequential_signing : bool)
  : M (contract * list Log) :=
  match factory_address config with
  | Some factory_address =>
      if truthy factory_address then
        account <- lift (Account_from_key private_key) ;;
        factory <- lift (eth_contract factory_address FACTORY_ABI) ;;
        let call := createSigningContract document_hash ipfs_cid
                      required_signers sequential_signing title description in
        lift (functions factory call) ;;;
        nonce <- rpc (op_get_transaction_count account)
                   (eth_get_transaction_count account) ;;
        let params := {| tx_from := account; tx_nonce := nonce;
                         tx_gas := 3000000;
                         tx_gasPrice := to_wei_gwei 20 |} in
        txn <- rpc (op_build_transaction factory call params)
                 (build_transaction factory call params) ;;
        signed_txn <- local op_sign_transaction
                        (sign_transaction txn private_key) ;;
        tx_hash <- rpc op_send_raw_transaction
                     (send_raw_transaction signed_txn) ;;
        logs <- rpc op_wait_for_transaction_receipt
                  (wait_for_transaction_receipt tx_hash) ;;
        ret (factory, logs)
      else raise (ValueError (py "Factory address not configured"))
  | None => raise (ValueError (py "Factory address not configured"))
  end.

Definition create_signing_contract (document_hash ipfs_cid : str)
    (required_signers : list str) (private_key : str)
    (title description : str) (sequential_signing : bool) : M str :=
  try_except
    (tx_receipt <- submit_creation document_hash ipfs_cid required_signers
                     private_key title description sequential_signing ;;
     scan_logs (fst tx_receipt) (snd tx_receipt))
    (fun e =>
       log_error (py "Error creating signing contract: " ++ exn_str e) ;;;
       raise e).

Definition sign_document (contract_address private_key metadata : str)
  : M str :=
  try_except
    (account <- lift (Account_from_key private_key) ;;
     contract <- lift (eth_contract contract_address SIGNER_ABI) ;;
     let call := signDocument metadata in
     lift (functions contract call) ;;;
     nonce <- rpc (op_get_transaction_count account)
                (eth_get_transaction_count account) ;;
     let params := {| tx_from := account; tx_nonce := nonce;
                      tx_gas := 200000;
                      tx_gasPrice := to_wei_gwei 20 |} in
     txn <- rpc (op_build_transaction contract call params)
              (build_transaction contract call params) ;;
     signed_txn <- local op_sign_transaction
                     (sign_transaction txn private_key) ;;
     tx_hash <- rpc op_send_raw_transaction
                  (send_raw_transaction signed_txn) ;;
     rpc op_wait_for_transaction_receipt
       (wait_for_transaction_receipt tx_hash) ;;;
     ret (tx_hash_hex tx_hash))
    (fun e =>
       log_error (py "Error signing document: " ++ exn_str e) ;;;
       raise e).

(* --------------------------------------------------------------------- *)
(** ** Status reconciliation                                              *)
(* --------------------------------------------------------------------- *)

(** The dictionary [get_contract_status] returns. *)
Record status_info := {
  signatures : list pyval;
  is_fully_signed : bool;
  si_required_signers : list str;
  signed_count : Z;
  total_signers : Z;
  si_status : str;
  si_document_hash : pyval;
  si_ipfs_cid : pyval
}.

Definition status_names : list str :=
  [py "INITIATED"; py "IN_PROGRESS"; py "COMPLETED"; py "CANCELLED"].

(** [status_names[status] if status < len(status_names) else "UNKNOWN"] *)
Definition status_name (status : Z) : result str :=
  if (status <? Z.of_nat (length status_names))%Z then
    match getitem status_names status with
    | Some name => inr name
    | None => inl (IndexError (py "list index out of range"))
    end
  else inr (py "UNKNOWN").

Definition get_contract_status (contract_address : str) : M status_info :=
  try_except
    (contract <- lift (eth_contract contract_address SIGNER_ABI) ;;
     signatures <- rpc (op_call contract (py "getSignatures"))
                     (getSignatures contract) ;;
     is_fully_signed <- rpc (op_call contract (py "isFullySigned"))
                          (isFullySigned contract) ;;
     required_signers <- rpc (op_call contract (py "getRequiredSigners"))
                           (getRequiredSigners contract) ;;
     progress <- rpc (op_call contract (py "getSigningProgress"))
                   (getSigningProgress contract) ;;
     status <- rpc (op_call contract (py "status")) (status contract) ;;
     document_hash <- rpc (op_call contract (py "documentHash"))
                        (documentHash contract) ;;
     ipfs_cid <- rpc (op_call contract (py "ipfsCid")) (ipfsCid contract) ;;
     name <- lift (status_name status) ;;
     ret {| signatures := signatures;
            is_fully_signed := is_fully_signed;
            si_required_signers := required_signers;
            signed_count := fst progress;
            total_signers := snd progress;
            si_status := name;
            si_document_hash := document_hash;
            si_ipfs_cid := ipfs_cid |})
    (fun e =>
       log_error (py "Error getting contract status: " ++ exn_str e) ;;;
       raise e).

(* --------------------------------------------------------------------- *)
(** ** Contract directory query                                           *)
(* --------------------------------------------------------------------- *)

(** An entry of the list [get_user_contracts] returns. *)
Record contract_entry := {
  ce_address : str;
  ce_title : pyval;
  ce_document_hash : pyval;
  ce_ipfs_cid : pyval;
  ce_created_at : pyval;
  ce_is_active : pyval;
  ce_status : str;
  ce_progress : str
}.

(** The body of the inner [try]: fetch, reconcile, build the entry. *)
Definition enrich (factory : contract) (address : str) : M contract_entry :=
  contract_info <- rpc (op_call factory (py "getContractInfo"))
                     (getContractInfo factory address) ;;
  status_info <- get_contract_status address ;;
  title <- index contract_info 6 ;;
  document_hash <- index contract_info 1 ;;
  ipfs_cid <- index contract_info 2 ;;
  created_at <- index contract_info 4 ;;
  is_active <- index contract_info 5 ;;
  ret {| ce_address := address;
         ce_title := title;
         ce_document_hash := document_hash;
         ce_ipfs_cid := ipfs_cid;
         ce_created_at := created_at;
         ce_is_active := is_active;
         ce_status := si_status status_info;
         ce_progress := str_of_int (signed_count status_info) ++ py "/"
                        ++ str_of_int (total_signers status_info) |}.

(** The [for address in contract_addresses] loop; [contracts] is the list
    being appended to. *)
Fixpoint enrich_all (factory : contract) (contract_addresses : list str)
    (contracts : list contract_entry) : M (list contract_entry) :=
  match contract_addresses with
  | address :: rest =>
      contracts' <-
        try_except
          (entry <- enrich factory address ;;
           ret (contracts ++ [entry]))
          (fun e =>
             log_warning (py "Error getting info for contract " ++ address
                          ++ py ": " ++ exn_str e) ;;;
             ret contracts) ;;
      enrich_all factory rest contracts'
  | [] => ret contracts
  end.

Definition get_user_contracts (user_address : str) : M (list contract_entry) :=
  try_except
    (match factory_address config with
     | Some factory_address =>
         if truthy factory_address then
           factory <- lift (eth_contract factory_address FACTORY_ABI) ;;
           contract_addresses <-
             rpc (op_call factory (py "getContractsByInitiator"))
               (getContractsByInitiator factory user_address) ;;
           enrich_all factory contract_addresses []
         else ret []
     | None => ret []
     end)
    (fun e =>
       log_error (py "Error getting user contracts: " ++ exn_str e) ;;;
       ret []).

(* --------------------------------------------------------------------- *)
(** ** User-interface handlers                                            *)
(* --------------------------------------------------------------------- *)

Record UploadedFile := { name : str; content : bytes }.

Definition cross_mark : str := [0x274C%N; 32%N].
Definition party_popper : str := [0x1F389%N; 32%N].

(** The signer list handed to contract creation: the initiator, then the
    entries of the form that are not blank, duplicates removed by a round
    trip through a dictionary. *)
Definition required_signers_of (initiator_address : str) (signers : list str)
  : list str :=
  let required_signers :=
    [initiator_address] ++ filter (fun s => truthy (strip s)) signers in
  Dict.keys (Dict.fromkeys str_eq_dec required_signers tt).

(** The [Create Signing Contract] button. *)
Definition on_create_contract (uploaded_file : option UploadedFile)
    (initiator_key : str) (signers : list str) (title description : str)
    (sequential_signing : bool) : M unit :=
  match uploaded_file with
  | None => show st_error (cross_mark ++ py "Please upload a document")
  | Some uploaded_file =>
      if negb (truthy initiator_key) then
        show st_error (cross_mark ++ py "Please enter your private key")
      else if negb (existsb truthy signers) then
        show st_error (cross_mark ++ py "Please add at least one signer")
      else
        try_except
          (let file_bytes := content uploaded_file in
           let document_hash := hash_document file_bytes in
           let ipfs_cid := upload_to_ipfs file_bytes (name uploaded_file) in
           initiator_address <- lift (Account_from_key initiator_key) ;;
           let required_signers :=
             required_signers_of initiator_address signers in
           contract_address <-
             create_signing_contract document_hash ipfs_cid required_signers
               initiator_key title description sequential_signing ;;
           show st_success
             (party_popper ++ py "Contract created successfully!") ;;;
           show st_info (py "**Contract Address:** `" ++ contract_address
                         ++ py "`") ;;;
           show st_info (py "**Document Hash:** `" ++ document_hash
                         ++ py "`") ;;;
           show st_info (py "**IPFS CID:** `" ++ ipfs_cid ++ py "`") ;;;
           (fun s => (inr tt, set_last_contract s contract_address, [])))
          (fun e =>
             show st_error (cross_mark ++ py "Error creating contract: "
                            ++ exn_str e))
  end.

(** Rendering of one listed contract (expander, columns, details button). *)
Variable render_contract : contract_entry -> M unit.

Fixpoint render_all (contracts : list contract_entry) : M unit :=
  match contracts with
  | contract :: rest => render_contract contract ;;; render_all rest
  | [] => ret tt
  end.

(** The [Load My Contracts] button. *)
Definition on_load_contracts (user_address_input : str) : M unit :=
  if truthy user_address_input then
    try_except
      (contracts <- get_user_contracts user_address_input ;;
       match contracts with
       | _ :: _ =>
           show st_success
             (py "Found " ++ str_of_int (Z.of_nat (length contracts))
              ++ py " contracts") ;;;
           render_all contracts
       | [] => show st_info (py "No contracts found for this address")
       end)
      (fun e =>
         show st_error (cross_mark ++ py "Error loading contracts: "
                        ++ exn_str e))
  else ret tt.

End Program.

Arguments M {W3} A.

(* ===================================================================== *)
(** * Specification-side definitions                                      *)
(* ===================================================================== *)

(** A lowercase hexadecimal digit: [0-9a-f]. *)
Definition is_lower_hex (c : N) : Prop :=
  (48 <= c <= 57 \/ 97 <= c <= 102)%N.

(** The signer list as the specification words it: the initiator followed by
    the non-empty entries, keeping the first occurrence of each string. *)
Fixpoint first_occurrences (seen l : list str) : list str :=
  match l with
  | x :: l' =>
      if in_dec str_eq_dec x seen then first_occurrences seen l'
      else x :: first_occurrences (x :: seen) l'
  | [] => []
  end.

Definition claimed_required_signers (initiator : str) (signers : list str)
  : list str :=
  first_occurrences [] (initiator :: filter truthy signers).

(** A blank entry: nothing but white space. *)
Definition blank (s : str) : bool := forallb isspace s.

(** Lifecycle names of the known codes. *)
Definition lifecycle (code : Z) : str :=
  match code with
  | 0%Z => py "INITIATED"
  | 1%Z => py "IN_PROGRESS"
  | 2%Z => py "COMPLETED"
  | 3%Z => py "CANCELLED"
  | _ => py "UNKNOWN"
  end.

(** The invariant of a status snapshot. *)
Definition snapshot_invariant (sigs : list pyval) (fully : bool)
    (count total : Z) : Prop :=
  count = Z.of_nat (length sigs)
  /\ (count <= total)%Z
  /\ (fully = true <-> count = total).

(** The error raised when no log of the receipt decodes. *)
Definition not_found : exn :=
  ValueError
    (py "Could not find ContractCreated event in transaction receipt").

Definition is_broadcast (ev : event) : bool :=
  match ev with
  | Called op_send_raw_transaction => true
  | _ => false
  end.

(** Number of broadcasts in a trace. *)
Definition broadcasts (evs : list event) : nat :=
  length (filter is_broadcast evs).

Definition is_call (ev : event) : bool :=
  match ev with
  | Called _ => true
  | _ => false
  end.

Section Observations.

Context {W3 : Web3}.

(** The events a computation emits from a state, and a bound on the
    broadcasts among them that holds from every state. *)
Definition emitted {A} (m : M A) (s : state) : list event := snd (m s).

Definition outcome {A} (m : M A) (s : state) : result A := fst (fst (m s)).

Definition sends_at_most {A} (n : nat) (m : M A) : Prop :=
  forall s, broadcasts (emitted m s) <= n.

(** The seven getter calls of [get_contract_status] all succeed, one after
    the other from chain state [w], and leave the chain in [w']. *)
Definition reads (c : contract) (w : World)
    (sigs : list pyval) (fully : bool) (signers : list str)
    (progress : Z * Z) (code : Z) (hash cid : pyval) (w' : World) : Prop :=
  exists w1 w2 w3 w4 w5 w6,
    getSignatures c w = (inr sigs, w1)
    /\ isFullySigned c w1 = (inr fully, w2)
    /\ getRequiredSigners c w2 = (inr signers, w3)
    /\ getSigningProgress c w3 = (inr progress, w4)
    /\ status c w4 = (inr code, w5)
    /\ documentHash c w5 = (inr hash, w6)
    /\ ipfsCid c w6 = (inr cid, w').

(** The events of those seven calls. *)
Definition read_events (c : contract) : list event :=
  map (fun g => Called (op_call c (py g)))
    ["getSignatures"; "isFullySigned"; "getRequiredSigners";
     "getSigningProgress"; "status"; "documentHash"; "ipfsCid"]%string.

(** A log that does not decode as the creation event. *)
Definition undecodable (factory : contract) (log : Log) : Prop :=
  exists e, processLog factory log = inl e.

(** The listing the directory query is to produce: addresses are visited in
    order; an address whose enrichment succeeds contributes its entry, one
    whose enrichment raises contributes a warning and nothing else. *)
Inductive listing (factory : contract)
  : state -> list str -> list contract_entry -> state -> list event -> Prop :=
| listing_done s : listing factory s [] [] s []
| listing_keep s a rest entry s1 ev1 entries s2 ev2 :
    enrich factory a s = (inr entry, s1, ev1) ->
    listing factory s1 rest entries s2 ev2 ->
    listing factory s (a :: rest) (entry :: entries) s2 (ev1 ++ ev2)
| listing_skip s a rest e s1 ev1 entries s2 ev2 :
    enrich factory a s = (inl e, s1, ev1) ->
    listing factory s1 rest entries s2 ev2 ->
    listing factory s (a :: rest) entries s2
      (ev1 ++ Logged WARNING (py "Error getting info for contract " ++ a
                               ++ py ": " ++ exn_str e) :: ev2).

End Observations.

(* ===================================================================== *)
(** * A small scripted chain                                              *)
(* ===================================================================== *)

(** A node whose answers are fixed by a script; its state counts the calls
    it has served.  A log is [Some a] for a creation event carrying address
    [a] and [None] for a log of some other contract. *)
Module Demo.

Record script := {
  receipt_logs : list (option str);
  initiated : result (list str);
  unreachable : list str;
  sigs : list pyval;
  fully : bool;
  progress : Z * Z;
  code : Z
}.

Definition info (a : str) : list pyval :=
  [PStr a; PStr (py "0xabc"); PStr (py "Qmabc"); PInt 0; PInt 1700000000;
   PBool true; PStr (py "Lease")].

Definition node (sc : script) : Web3 := {|
  World := nat;
  Txn := contract_function * tx_params;
  SignedTxn := contract_function * tx_params;
  TxHash := Z;
  Log := option str;
  Account_from_key := fun k =>
    if truthy k then inr (py "0x" ++ k)
    else inl (Web3Exception (py "invalid private key"));
  eth_contract := fun a abi => inr (Contract a abi);
  functions := fun _ _ => inr tt;
  eth_get_transaction_count := fun _ w => (inr (Z.of_nat w), S w);
  build_transaction := fun _ f p w => (inr (f, p), S w);
  sign_transaction := fun t _ => inr t;
  send_raw_transaction := fun _ w => (inr 1%Z, S w);
  wait_for_transaction_receipt := fun _ w => (inr (receipt_logs sc), S w);
  processLog := fun _ l =>
    match l with
    | Some a => inr {| contractAddress := a |}
    | None => inl (Web3Exception (py "MismatchedABI"))
    end;
  tx_hash_hex := fun _ => py "0x01";
  getSignatures := fun _ w => (inr (sigs sc), S w);
  isFullySigned := fun _ w => (inr (fully sc), S w);
  getRequiredSigners := fun _ w => (inr [py "0xA"; py "0xB"], S w);
  getSigningProgress := fun _ w => (inr (progress sc), S w);
  status := fun _ w => (inr (code sc), S w);
  documentHash := fun _ w => (inr (PStr (py "0xabc")), S w);
  ipfsCid := fun _ w => (inr (PStr (py "Qmabc")), S w);
  getContractsByInitiator := fun _ _ w => (initiated sc, S w);
  getContractInfo := fun _ a w =>
    if in_dec str_eq_dec a (unreachable sc)
    then (inl (Web3Exception (py "execution reverted")), S w)
    else (inr (info a), S w)
|}.

Definition quiet : script := {|
  receipt_logs := [None; Some (py "0xC0DE")];
  initiated := inr [py "0xC1"; py "0xC2"; py "0xC3"];
  unreachable := [py "0xC2"];
  sigs := [];
  fully := false;
  progress := (0, 2)%Z;
  code := 0
|}.

Definition with_logs (logs : list (option str)) : script := {|
  receipt_logs := logs;
  initiated := initiated quiet;
  unreachable := unreachable quiet;
  sigs := sigs quiet;
  fully := fully quiet;
  progress := progress quiet;
  code := code quiet
|}.

Definition with_status (sg : list pyval) (f : bool) (p : Z * Z) (c : Z)
  : script := {|
  receipt_logs := receipt_logs quiet;
  initiated := initiated quiet;
  unreachable := unreachable quiet;
  sigs := sg;
  fully := f;
  progress := p;
  code := c
|}.

Definition with_initiated (r : result (list str)) : script := {|
  receipt_logs := receipt_logs quiet;
  initiated := r;
  unreachable := unreachable quiet;
  sigs := sigs quiet;
  fully := fully quiet;
  progress := progress quiet;
  code := code quiet
|}.

Definition config (factory : option str) : Config := {|
  environment := py "development";
  rpc_url := py "http://127.0.0.1:8545";
  chain_id := 31337;
  factory_address := factory
|}.

Definition start (sc : script) : @state (node sc) :=
  {| chain := (0%nat : @World (node sc)); last_contract := None |}.

End Demo.

(* ===================================================================== *)
(** * Process configuration and ABI loading                               *)
(* ===================================================================== *)

(** [os.environ] *)
Definition environ := str -> option str.

(** [os.getenv(key, default)] *)
Definition getenv_default (env : environ) (key default : str) : str :=
  match env key with
  | Some v => v
  | None => default
  end.

(** An optional string inside an f-string: [None] prints as [None]. *)
Definition format_optional (v : option str) : str :=
  match v with
  | Some s => s
  | None => py "None"
  end.

(** [s.upper()] on the letters [a-z]; other code points are left as they
    are.  [load_config] applies it to one of its three literals only. *)
Definition upper (s : str) : str :=
  map (fun c => if ((97 <=? c) && (c <=? 122))%N then (c - 32)%N else c) s.

(** Everything [Config] holds: the fields the operations read, and the
    storage settings. *)
Record Settings := {
  base : Config;
  nft_storage_key : option str;
  ipfs_gateway : str
}.

(** The [if]/[elif] chain of [load_config]: endpoint and chain id. *)
Definition endpoint (env : environ) (environment : str) : result (str * Z) :=
  if str_eqb environment (py "development") then
    inr (py "http://127.0.0.1:8545", 31337%Z)
  else if str_eqb environment (py "goerli") then
    inr (py "https://goerli.infura.io/v3/"
         ++ format_optional (env (py "INFURA_PROJECT_ID")), 5%Z)
  else if str_eqb environment (py "sepolia") then
    inr (py "https://sepolia.infura.io/v3/"
         ++ format_optional (env (py "INFURA_PROJECT_ID")), 11155111%Z)
  else inl (ValueError (py "Unsupported environment: " ++ environment)).

Definition load_config (env : environ) (environment : str) : result Settings :=
  match endpoint env environment with
  | inr (url, id) =>
      inr {| base := {| environment := environment;
                        rpc_url := url;
                        chain_id := id;
                        factory_address :=
                          env (py "FACTORY_ADDRESS_" ++ upper environment) |};
             nft_storage_key := env (py "NFT_STORAGE_API_KEY");
             ipfs_gateway := py "https://ipfs.io/ipfs/" |}
  | inl e => inl e
  end.

(** [Config()] *)
Definition Config_init (env : environ) : result Settings :=
  load_config env (getenv_default env (py "ENVIRONMENT") (py "development")).

(** JSON documents as [json.load] returns them; [JNull] is [None]. *)
#[warnings="-register-all"]
Inductive json :=
| JNull
| JBool (b : bool)
| JInt (z : Z)
| JFloat (text : str)
| JString (s : str)
| JArray (items : list json)
| JObject (members : list (str * json)).

(** What can go wrong inside [load_contract_abi]. *)
Inductive load_error :=
| OpenFailed (msg : str)
| DecodeFailed (msg : str)
| KeyMissing (key : str)
| NotSubscriptable (value : json).

(** A path on disk: nothing there, something that cannot be opened or
    parsed, or a JSON document. *)
Inductive file :=
| Absent
| Broken (e : load_error)
| Parsed (document : json).

Definition filesystem := str -> file.

(** The value stored under [key] in a parsed object (its keys are
    distinct). *)
Fixpoint member (key : str) (members : list (str * json)) : option json :=
  match members with
  | (k, v) :: rest => if str_eq_dec k key then Some v else member key rest
  | [] => None
  end.

(** [document[key]] for a string key. *)
Definition subscript (document : json) (key : str) : load_error + json :=
  match document with
  | JObject members =>
      match member key members with
      | Some v => inr v
      | None => inl (KeyMissing key)
      end
  | other => inl (NotSubscriptable other)
  end.

(** The record [logger.error] writes: contract name and exception. *)
Record load_failure := { failed_contract : str; failure : load_error }.

(** The [try] body of [load_contract_abi]. *)
Definition find_abi (fs : filesystem) (environment contract_name : str)
  : load_error + json :=
  let artifacts_path :=
    py "artifacts/contracts/" ++ contract_name ++ py ".sol/" ++ contract_name
    ++ py ".json" in
  match fs artifacts_path with
  | Parsed artifact => subscript artifact (py "abi")
  | Broken e => inl e
  | Absent =>
      let deployment_path :=
        py "deployments/" ++ environment ++ py ".json" in
      match fs deployment_path with
      | Broken e => inl e
      | Parsed _ | Absent =>
          let build_path :=
            py "build/contracts/" ++ contract_name ++ py ".json" in
          match fs build_path with
          | Parsed contract_data => subscript contract_data (py "abi")
          | Broken e => inl e
          | Absent => inr JNull
          end
      end
  end.

(** [load_contract_abi]: the value returned and the records logged. *)
Definition load_contract_abi (fs : filesystem)
    (environment contract_name : str) : json * list load_failure :=
  match find_abi fs environment contract_name with
  | inr abi => (abi, [])
  | inl e =>
      (JNull, [{| failed_contract := contract_name; failure := e |}])
  end.

(** The three paths [load_contract_abi] probes. *)
Definition artifacts_path (contract_name : str) : str :=
  py "artifacts/contracts/" ++ contract_name ++ py ".sol/" ++ contract_name
  ++ py ".json".

Definition deployment_path (environment : str) : str :=
  py "deployments/" ++ environment ++ py ".json".

Definition build_path (contract_name : str) : str :=
  py "build/contracts/" ++ contract_name ++ py ".json".

(** The environment variable holding the factory address of a network. *)
Definition factory_variable (environment : str) : str :=
  py "FACTORY_ADDRESS_" ++ upper environment.

(** The environment the process runs in. *)
Definition selected (env : environ) : str :=
  getenv_default env (py "ENVIRONMENT") (py "development").

(** A process environment selecting goerli, with its factory address set and
    no Infura project id. *)
Definition goerli_env : environ :=
  fun key =>
    if str_eqb key (py "ENVIRONMENT") then Some (py "goerli")
    else if str_eqb key (py "FACTORY_ADDRESS_GOERLI") then Some (py "0xF")
    else None.

(** The same without a factory address for goerli; the one set for sepolia
    is of no use. *)
Definition goerli_env_without_factory : environ :=
  fun key =>
    if str_eqb key (py "ENVIRONMENT") then Some (py "goerli")
    else if str_eqb key (py "FACTORY_ADDRESS_SEPOLIA") then Some (py "0xF")
    else None.

(** A compiled artifact holding an ABI. *)
Definition artifact_with_abi : json :=
  JObject [(py "contractName", JString (py "DocumentSignerFactory"));
           (py "abi", JArray [JObject [(py "type", JString (py "event"))]])].

(** A disk with a Truffle build only, and one where the deployments file of
    the environment is present but cannot be parsed. *)
Definition truffle_disk : filesystem :=
  fun path =>
    if str_eqb path (build_path (py "DocumentSignerFactory"))
    then Parsed artifact_with_abi
    else Absent.

Definition disk_with_broken_deployment : filesystem :=
  fun path =>
    if str_eqb path (deployment_path (py "development"))
    then Broken (DecodeFailed (py "Expecting value: line 1 column 1 (char 0)"))
    else truffle_disk path.

(* ===================================================================== *)
(** * Further observations on traces                                      *)
(* ===================================================================== *)

(** The node calls of a trace, in order. *)
Definition calls (evs : list event) : list web3_op :=
  flat_map (fun ev => match ev with Called op => [op] | _ => [] end) evs.

(** The kind of a node call, payload apart. *)
Inductive step :=
| nonce_step | build_step | sign_step | send_step | wait_step | read_step.

Definition step_of (op : web3_op) : step :=
  match op with
  | op_get_transaction_count _ => nonce_step
  | op_build_transaction _ _ _ => build_step
  | op_sign_transaction => sign_step
  | op_send_raw_transaction => send_step
  | op_wait_for_transaction_receipt => wait_step
  | op_call _ _ => read_step
  end.

Definition steps (evs : list event) : list step := map step_of (calls evs).

(** The order in which a submission talks to the node. *)
Definition submission_steps : list step :=
  [nonce_step; build_step; sign_step; send_step; wait_step].

(** Events of a read-only operation: getter calls and log records. *)
Definition is_read (ev : event) : bool :=
  match ev with
  | Called (op_call _ _) => true
  | Logged _ _ => true
  | _ => false
  end.

Definition is_warning (ev : event) : bool :=
  match ev with
  | Logged WARNING _ => true
  | _ => false
  end.

Definition warnings (evs : list event) : nat :=
  length (filter is_warning evs).



Definition not_warning (ev : event) : bool := negb (is_warning ev).

Section MoreObservations.

Context {W3 : Web3}.

(** The state a computation leaves. *)
Definition final {A} (m : M A) (s : state) : state := snd (fst (m s)).

(** From every state, [m] emits only events satisfying [P] and leaves
    [st.session_state.last_contract] as it found it. *)
Definition confined {A} (P : event -> bool) (m : M A) : Prop :=
  forall s,
    forallb P (emitted m s) = true
    /\ last_contract (final m s) = last_contract s.

(** The [except Exception as e: logger.error(prefix + str(e)); raise]
    discipline: a run that raises ends with that one log record and raises
    the error it logged; a run that returns logs nothing. *)
Definition logs_and_reraises {A} (prefix : str) (m : M A) : Prop :=
  forall s,
    match outcome m s with
    | inl e =>
        exists evs,
          emitted m s = evs ++ [Logged ERROR (prefix ++ exn_str e)]
          /\ forallb is_call evs = true
    | inr _ => forallb is_call (emitted m s) = true
    end.

(** A transaction for [call] on [c] is built, signed with [private_key] and
    accepted by the node, which answers [tx_hash]. *)
Definition broadcast_sent (c : contract) (call : contract_function)
    (private_key account : str) (gas : Z) (w : World) (tx_hash : TxHash)
    (w' : World) : Prop :=
  exists nonce w1 txn w2 signed_txn,
    eth_get_transaction_count account w = (inr nonce, w1)
    /\ build_transaction c call
         {| tx_from := account; tx_nonce := nonce; tx_gas := gas;
            tx_gasPrice := to_wei_gwei 20 |} w1 = (inr txn, w2)
    /\ sign_transaction txn private_key = inr signed_txn
    /\ send_raw_transaction signed_txn w2 = (inr tx_hash, w').

End MoreObservations.

(* ===================================================================== *)
(** * The status panel of the signing tab                                 *)
(* ===================================================================== *)

(** Exceptions a page can meet: those of the operations, and a missing
    dictionary key.  [str] of a [KeyError] is the key between quotes (for a
    key without quotes or escapes, as all keys written in the source are). *)
Inductive page_exn :=
| Raised (e : exn)
| KeyError (key : str).

Definition page_exn_str (e : page_exn) : str :=
  match e with
  | Raised e => exn_str e
  | KeyError key => py "'" ++ key ++ py "'"
  end.

(** A value stored in the dictionary [get_contract_status] returns. *)
Inductive field :=
| F_values (items : list pyval)
| F_bool (b : bool)
| F_strs (items : list str)
| F_int (z : Z)
| F_str (s : str)
| F_value (v : pyval).

(** That dictionary, key by key, as the [return] statement builds it. *)
Definition status_info_items (d : status_info) : list (str * field) :=
  [(py "signatures", F_values (signatures d));
   (py "is_fully_signed", F_bool (is_fully_signed d));
   (py "required_signers", F_strs (si_required_signers d));
   (py "signed_count", F_int (signed_count d));
   (py "total_signers", F_int (total_signers d));
   (py "status", F_str (si_status d));
   (py "document_hash", F_value (si_document_hash d));
   (py "ipfs_cid", F_value (si_ipfs_cid d))].

Fixpoint lookup (key : str) (items : list (str * field)) : option field :=
  match items with
  | (k, v) :: rest => if str_eq_dec k key then Some v else lookup key rest
  | [] => None
  end.

(** [status_info[key]] *)
Definition status_info_getitem (d : status_info) (key : str)
  : page_exn + field :=
  match lookup key (status_info_items d) with
  | Some v => inr v
  | None => inl (KeyError key)
  end.

Definition pyval_truthy (v : pyval) : bool :=
  match v with
  | PStr s => truthy s
  | PInt z => negb (z =? 0)%Z
  | PBool b => b
  | PBytes b => match b with [] => false | _ => true end
  | PTuple items => match items with [] => false | _ => true end
  end.

Definition field_truthy (f : field) : bool :=
  match f with
  | F_values items => match items with [] => false | _ => true end
  | F_bool b => b
  | F_strs items => match items with [] => false | _ => true end
  | F_int z => negb (z =? 0)%Z
  | F_str s => truthy s
  | F_value v => pyval_truthy v
  end.

(** What a page does: events of the operations it runs, and widgets. *)
Inductive rendered :=
| Core (ev : event)
| Subheader (text : str)
| Metric (label : str) (value : field)
| Warning (msg : str).

Definition bar_chart : str := [0x1F4CA%N; 32%N].
Definition busts : str := [0x1F465%N; 32%N].

Section Pages.

Context {W3 : Web3}.

Definition Page (A : Type) : Type :=
  state -> (page_exn + A) * state * list rendered.

Definition page_ret {A} (a : A) : Page A := fun s => (inr a, s, []).

Definition page_bind {A B} (m : Page A) (k : A -> Page B) : Page B :=
  fun s =>
    match m s with
    | (inr a, s1, out1) =>
        let '(r, s2, out2) := k a s1 in (r, s2, out1 ++ out2)
    | (inl e, s1, out1) => (inl e, s1, out1)
    end.

(** [try: m except Exception as e: h e] *)
Definition page_try {A} (m : Page A) (h : page_exn -> Page A) : Page A :=
  fun s =>
    match m s with
    | (inl e, s1, out1) =>
        let '(r, s2, out2) := h e s1 in (r, s2, out1 ++ out2)
    | (inr a, s1, out1) => (inr a, s1, out1)
    end.

Definition widget_call (w : rendered) : Page unit :=
  fun s => (inr tt, s, [w]).

(** An operation of the core run from a page. *)
Definition core {A} (m : M A) : Page A :=
  fun s =>
    let '(r, s1, evs) := m s in
    (match r with inr a => inr a | inl e => inl (Raised e) end,
     s1, map Core evs).

Definition subscripted (d : status_info) (key : str) : Page field :=
  fun s => (status_info_getitem d key, s, []).

(** The loop over the required signers, one [st.write] each. *)
Variable write_signers : status_info -> Page unit.

(** The panel shown beside the signing form whenever a contract address is
    entered. *)
Definition status_panel (contract_address : str) : Page unit :=
  if truthy contract_address then
    page_try
      (page_bind (core (get_contract_status contract_address))
         (fun status_info =>
       page_bind (widget_call (Subheader (bar_chart ++ py "Contract Status")))
         (fun _ =>
       page_bind (subscripted status_info (py "status")) (fun status =>
       page_bind (widget_call (Metric (py "Status") status)) (fun _ =>
       page_bind (subscripted status_info (py "progress")) (fun progress =>
       page_bind (widget_call (Metric (py "Progress") progress)) (fun _ =>
       page_bind (subscripted status_info (py "required_signers"))
         (fun required_signers =>
       if field_truthy required_signers then
         page_bind
           (widget_call (Subheader (busts ++ py "Required Signers")))
           (fun _ => write_signers status_info)
       else page_ret tt))))))))
      (fun e =>
         widget_call
           (Warning (py "Could not load contract status: "
                     ++ page_exn_str e)))
  else page_ret tt.

End Pages.

(** A rendering that fails on every entry. *)
Definition failing_render {W3 : Web3} (entry : contract_entry) : M unit :=
  raise (ValueError (py "year out of range")).

(* ===================================================================== *)
(** * Document fingerprinting: proofs                                     *)
(* ===================================================================== *)

Section Fingerprint.

Import Hashlib.

Lemma hexdigit_lower_hex (n : N) : (n < 16)%N -> is_lower_hex (hexdigit n).
Proof.
  intros Hn. unfold is_lower_hex, hexdigit.
  destruct (N.ltb_spec n 10); lia.
Qed.

Lemma byte_to_N_bound (b : byte) : (Byte.to_N b < 256)%N.
Proof. destruct b; vm_compute; reflexivity. Qed.

Lemma hex_of_byte_lower (b : byte) : Forall is_lower_hex (hex_of_byte b).
Proof.
  pose proof (byte_to_N_bound b) as Hb. unfold hex_of_byte.
  constructor; [|constructor; [|constructor]]; apply hexdigit_lower_hex.
  - apply N.Div0.div_lt_upper_bound; lia.
  - apply N.mod_lt; lia.
Qed.

Lemma hexlify_lower (bs : bytes) : Forall is_lower_hex (hexlify bs).
Proof.
  induction bs as [|b bs IH].
  - constructor.
  - change (hexlify (b :: bs)) with (hex_of_byte b ++ hexlify bs).
    apply Forall_app. split; [apply hex_of_byte_lower | exact IH].
Qed.

Lemma hexlify_length (bs : bytes) : length (hexlify bs) = 2 * length bs.
Proof.
  induction bs as [|b bs IH]; simpl; [reflexivity | rewrite IH; lia].
Qed.

Lemma be32_length (x : Z) : length (be32 x) = 4.
Proof. reflexivity. Qed.

Lemma le32_length (x : Z) : length (le32 x) = 4.
Proof. unfold le32. rewrite length_rev. apply be32_length. Qed.

Lemma sha256_digest_length (msg : bytes) : length (sha256_digest msg) = 32.
Proof.
  unfold sha256_digest. cbv zeta.
  rewrite !length_app, !be32_length. reflexivity.
Qed.

Lemma md5_digest_length (msg : bytes) : length (md5_digest msg) = 16.
Proof.
  unfold md5_digest. cbv zeta.
  rewrite !length_app, !le32_length. reflexivity.
Qed.

End Fingerprint.

(** C6: [hash_document b] is the two characters [0x] followed by the
    lowercase hexadecimal rendering of the SHA-256 digest of exactly the bytes
    [b]: 64 digits in [0-9a-f], 66 characters in all.  The hash object is
    created fresh in each call, so nothing but [b] enters the digest. *)
Theorem hash_document_is_sha256_hex (b : bytes) :
  hash_document b = py "0x" ++ Hashlib.hexlify (Hashlib.sha256_digest b)
  /\ Hashlib.fed (Hashlib.update Hashlib.sha256 b) = b
  /\ length (hash_document b) = 66
  /\ Forall is_lower_hex (skipn 2 (hash_document b)).
Proof.
  assert (Heq : hash_document b
                = py "0x" ++ Hashlib.hexlify (Hashlib.sha256_digest b)).
  { reflexivity. }
  split; [exact Heq | split; [reflexivity | split]].
  - rewrite Heq, length_app, hexlify_length, sha256_digest_length.
    reflexivity.
  - rewrite Heq. change (py "0x") with [48%N; 120%N].
    cbn [app skipn]. apply hexlify_lower.
Qed.

(** C9: [upload_to_ipfs] ignores the file name; the pointer is [Qm] followed
    by the 32 hexadecimal digits of the MD5 digest of the bytes, 34 characters
    in all: the [[:44]] slice removes nothing. *)
Theorem upload_to_ipfs_is_md5_hex (b : bytes) (f1 f2 : str) :
  upload_to_ipfs b f1 = upload_to_ipfs b f2
  /\ upload_to_ipfs b f1 = py "Qm" ++ Hashlib.hexlify (Hashlib.md5_digest b)
  /\ length (Hashlib.hexlify (Hashlib.md5_digest b)) = 32
  /\ length (upload_to_ipfs b f1) = 34.
Proof.
  assert (Hlen : length (Hashlib.hexlify (Hashlib.md5_digest b)) = 32).
  { rewrite hexlify_length, md5_digest_length. reflexivity. }
  assert (Heq : upload_to_ipfs b f1
                = py "Qm" ++ Hashlib.hexlify (Hashlib.md5_digest b)).
  { unfold upload_to_ipfs, slice_to, Hashlib.hexdigest, Hashlib.digest.
    cbn [Hashlib.algo Hashlib.md5 Hashlib.fed].
    rewrite firstn_all2 by (rewrite Hlen; lia). reflexivity. }
  split; [reflexivity | split; [exact Heq | split; [exact Hlen |]]].
  rewrite Heq, length_app, Hlen. reflexivity.
Qed.

(** Known answers: the digests of [abc] agree with hashlib's. *)
Example hash_document_abc :
  hash_document (list_byte_of_string "abc")
  = py "0xba7816bf8f01cfea414140de5dae2223b00361a396177a9cb410ff61f20015ad".
Proof. vm_compute. reflexivity. Qed.

Example upload_to_ipfs_abc :
  upload_to_ipfs (list_byte_of_string "abc") (py "contract.pdf")
  = py "Qm900150983cd24fb0d6963f7d28e17f72".
Proof. vm_compute. reflexivity. Qed.

(* ===================================================================== *)
(** * Required signers: proofs                                            *)
(* ===================================================================== *)

Section Stripping.

Lemma truthy_lstrip (s : str) : truthy (lstrip s) = negb (forallb isspace s).
Proof.
  induction s as [|c s IH]; simpl; [reflexivity|].
  destruct (isspace c); simpl; [exact IH | reflexivity].
Qed.

Lemma blank_lstrip (s : str) : blank (lstrip s) = blank s.
Proof.
  unfold blank. induction s as [|c s IH]; simpl; [reflexivity|].
  destruct (isspace c) eqn:Hc; simpl; [exact IH | now rewrite Hc].
Qed.

Lemma blank_rev (s : str) : blank (rev s) = blank s.
Proof.
  unfold blank. induction s as [|c s IH]; simpl; [reflexivity|].
  rewrite forallb_app, IH. simpl. rewrite andb_true_r. apply andb_comm.
Qed.

Lemma truthy_rev (s : str) : truthy (rev s) = truthy s.
Proof.
  destruct s as [|c s]; simpl; [reflexivity|].
  destruct (rev s ++ [c]) eqn:E; [|reflexivity].
  now apply app_eq_nil in E.
Qed.

(** [s.strip()] is true exactly when [s] is not blank. *)
Lemma truthy_strip (s : str) : truthy (strip s) = negb (blank s).
Proof.
  unfold strip, rstrip.
  rewrite truthy_rev, truthy_lstrip.
  fold (blank (rev (lstrip s))). now rewrite blank_rev, blank_lstrip.
Qed.

End Stripping.

Section DictKeys.

Variable V : Type.

Lemma keys_setitem_old (d : Dict.dict str V) (k : str) (v : V) :
  In k (Dict.keys d) ->
  Dict.keys (Dict.setitem str_eq_dec d k v) = Dict.keys d.
Proof.
  induction d as [|[k' v'] d IH]; simpl; [tauto|].
  intros Hin. destruct (str_eq_dec k' k) as [->|Hne]; simpl; [reflexivity|].
  f_equal. apply IH. destruct Hin; [contradiction | assumption].
Qed.

Lemma keys_setitem_new (d : Dict.dict str V) (k : str) (v : V) :
  ~ In k (Dict.keys d) ->
  Dict.keys (Dict.setitem str_eq_dec d k v) = Dict.keys d ++ [k].
Proof.
  induction d as [|[k' v'] d IH]; simpl; [reflexivity|].
  intros Hin. destruct (str_eq_dec k' k) as [->|Hne]; simpl; [tauto|].
  f_equal. apply IH. tauto.
Qed.

Lemma first_occurrences_ext (l seen seen' : list str) :
  (forall x, In x seen <-> In x seen') ->
  first_occurrences seen l = first_occurrences seen' l.
Proof.
  revert seen seen'.
  induction l as [|x l IH]; intros seen seen' Hext; simpl; [reflexivity|].
  destruct (in_dec str_eq_dec x seen) as [Hi|Hi],
           (in_dec str_eq_dec x seen') as [Hi'|Hi'].
  - now apply IH.
  - apply Hext in Hi. contradiction.
  - apply Hext in Hi'. contradiction.
  - f_equal. apply IH. intros y. simpl. rewrite Hext. reflexivity.
Qed.

Lemma keys_fold_setitem (l : list str) (v : V) (d : Dict.dict str V) :
  Dict.keys (fold_left (fun d k => Dict.setitem str_eq_dec d k v) l d)
  = Dict.keys d ++ first_occurrences (Dict.keys d) l.
Proof.
  revert d. induction l as [|x l IH]; intros d; simpl.
  - now rewrite app_nil_r.
  - rewrite IH. destruct (in_dec str_eq_dec x (Dict.keys d)) as [Hi|Hi].
    + now rewrite keys_setitem_old.
    + rewrite keys_setitem_new by assumption.
      rewrite <- app_assoc. simpl. do 2 f_equal.
      apply first_occurrences_ext. intros y.
      rewrite in_app_iff. simpl. tauto.
Qed.

(** [list(dict.fromkeys(l))] keeps the first occurrence of every key. *)
Lemma keys_fromkeys (l : list str) (v : V) :
  Dict.keys (Dict.fromkeys str_eq_dec l v) = first_occurrences [] l.
Proof. unfold Dict.fromkeys. now rewrite keys_fold_setitem. Qed.

End DictKeys.

Section FirstOccurrences.

Lemma first_occurrences_In (l seen : list str) (x : str) :
  In x (first_occurrences seen l) <-> In x l /\ ~ In x seen.
Proof.
  revert seen. induction l as [|y l IH]; intros seen; simpl; [tauto|].
  destruct (in_dec str_eq_dec y seen) as [Hi|Hi]; simpl; rewrite IH; simpl.
  - split; [tauto|]. intros [[->|Hin] Hn]; tauto.
  - split.
    + intros [->|[Hin Hn]]; tauto.
    + intros [[->|Hin] Hn]; [tauto|].
      destruct (str_eq_dec y x); [tauto|]. right. tauto.
Qed.

Lemma first_occurrences_NoDup (l seen : list str) :
  NoDup (first_occurrences seen l).
Proof.
  revert seen. induction l as [|y l IH]; intros seen; simpl; [constructor|].
  destruct (in_dec str_eq_dec y seen); [apply IH|].
  constructor; [|apply IH].
  rewrite first_occurrences_In. simpl. tauto.
Qed.

End FirstOccurrences.

(** C2, as the code has it: the list submitted is the initiator followed by
    the entries that are not blank (an entry of white space only is dropped
    like an empty one), each string kept at its first occurrence; the
    initiator is first, occurs exactly once, and nothing is repeated. *)
Theorem required_signers_first_occurrences
    (initiator : str) (signers : list str) :
  let kept := filter (fun s => negb (blank s)) signers in
  let submitted := required_signers_of initiator signers in
  submitted = first_occurrences [] (initiator :: kept)
  /\ hd_error submitted = Some initiator
  /\ count_occ str_eq_dec submitted initiator = 1
  /\ NoDup submitted
  /\ (forall s, In s submitted <-> s = initiator \/ In s kept).
Proof.
  intros kept submitted.
  assert (Heq : submitted = first_occurrences [] (initiator :: kept)).
  { unfold submitted, required_signers_of. cbv zeta.
    rewrite keys_fromkeys. simpl. do 2 f_equal.
    apply filter_ext. intros s. apply truthy_strip. }
  assert (Hnd : NoDup submitted).
  { rewrite Heq. apply first_occurrences_NoDup. }
  assert (Hin : forall s, In s submitted <-> s = initiator \/ In s kept).
  { intros s. rewrite Heq, first_occurrences_In. simpl.
    split; [intros [[->|H] _]; auto | intros [->|H]; auto]. }
  repeat split; try assumption.
  - rewrite Heq. reflexivity.
  - apply NoDup_count_occ'; [assumption|]. apply Hin. now left.
  - apply Hin.
  - apply Hin.
Qed.

(** C2 as stated fails on a blank entry: the form accepts the signer list
    [[" "]], the entry is not empty, and it is not submitted. *)
Lemma blank_signer_not_submitted :
  existsb truthy [py " "] = true
  /\ required_signers_of (py "0xA") [py " "] = [py "0xA"]
  /\ claimed_required_signers (py "0xA") [py " "] = [py "0xA"; py " "]
  /\ required_signers_of (py "0xA") [py " "]
     <> claimed_required_signers (py "0xA") [py " "].
Proof.
  repeat split; try reflexivity.
  vm_compute. discriminate.
Qed.

(** The example of the specification: [[A, B, A, C]] with initiator [A]. *)
Example required_signers_ABAC :
  required_signers_of (py "0xA") [py "0xA"; py "0xB"; py "0xA"; py "0xC"]
  = [py "0xA"; py "0xB"; py "0xC"].
Proof. reflexivity. Qed.

(** The initiator is added when the caller left it out. *)
Example required_signers_initiator_omitted :
  required_signers_of (py "0xA") [py "0xB"; []; py "0xC"]
  = [py "0xA"; py "0xB"; py "0xC"].
Proof. reflexivity. Qed.

(* ===================================================================== *)
(** * Broadcasts                                                          *)
(* ===================================================================== *)

Section Broadcasts.

Context {W3 : Web3}.

Lemma broadcasts_app (a b : list event) :
  broadcasts (a ++ b) = broadcasts a + broadcasts b.
Proof. unfold broadcasts. now rewrite filter_app, length_app. Qed.

Lemma sends_weaken {A} (n n' : nat) (m : M A) :
  n <= n' -> sends_at_most n m -> sends_at_most n' m.
Proof. intros Hle H s. specialize (H s). lia. Qed.

Lemma sends_ret {A} (a : A) : sends_at_most 0 (ret a).
Proof. intros s. apply Nat.le_refl. Qed.

Lemma sends_raise {A} (e : exn) : sends_at_most 0 (@raise _ A e).
Proof. intros s. apply Nat.le_refl. Qed.

Lemma sends_lift {A} (r : result A) : sends_at_most 0 (lift r).
Proof. intros s. apply Nat.le_refl. Qed.

Lemma sends_log_error (msg : str) : sends_at_most 0 (log_error msg).
Proof. intros s. apply Nat.le_refl. Qed.

Lemma sends_rpc {A} (op : web3_op) (f : World -> result A * World) :
  sends_at_most (broadcasts [Called op]) (rpc op f).
Proof.
  intros s. unfold emitted, rpc. destruct (f (chain s)). apply Nat.le_refl.
Qed.

Lemma sends_rpc_quiet {A} (op : web3_op) (f : World -> result A * World) :
  is_broadcast (Called op) = false -> sends_at_most 0 (rpc op f).
Proof.
  intros Hq. pose proof (sends_rpc op f) as H.
  change (broadcasts [Called op])
    with (length (if is_broadcast (Called op) then [Called op] else []))
    in H.
  rewrite Hq in H. exact H.
Qed.

Lemma sends_local_quiet {A} (op : web3_op) (r : result A) :
  is_broadcast (Called op) = false -> sends_at_most 0 (local op r).
Proof.
  intros Hq s.
  change (broadcasts (emitted (local op r) s))
    with (length (if is_broadcast (Called op) then [Called op] else [])).
  rewrite Hq. apply Nat.le_refl.
Qed.

Lemma sends_bind {A B} (n k : nat) (m : M A) (f : A -> M B) :
  sends_at_most n m -> (forall a, sends_at_most k (f a)) ->
  sends_at_most (n + k) (bind m f).
Proof.
  intros Hm Hf s. specialize (Hm s). unfold emitted, bind in *.
  destruct (m s) as [[[e|a] s1] ev1]; simpl in *; [lia|].
  specialize (Hf a s1). unfold emitted in Hf.
  destruct (f a s1) as [[r s2] ev2]. simpl in *.
  rewrite broadcasts_app. lia.
Qed.

Lemma sends_try {A} (n k : nat) (m : M A) (h : exn -> M A) :
  sends_at_most n m -> (forall e, sends_at_most k (h e)) ->
  sends_at_most (n + k) (try_except m h).
Proof.
  intros Hm Hh s. specialize (Hm s). unfold emitted, try_except in *.
  destruct (m s) as [[[e|a] s1] ev1]; simpl in *; [|lia].
  specialize (Hh e s1). unfold emitted in Hh.
  destruct (h e s1) as [[r s2] ev2]. simpl in *.
  rewrite broadcasts_app. lia.
Qed.

Lemma sends_scan_logs (factory : contract) (logs : list Log) :
  sends_at_most 0 (scan_logs factory logs).
Proof.
  induction logs as [|log logs IH]; simpl; [apply sends_raise|].
  destruct (processLog factory log); [exact IH | apply sends_ret].
Qed.

(** One step that does not broadcast, then the rest. *)
Ltac quiet_step :=
  lazymatch goal with
  | |- sends_at_most ?n (bind _ _) =>
      apply (@sends_bind _ _ 0 n);
      [first [ apply sends_lift
             | apply sends_log_error
             | apply sends_rpc_quiet; reflexivity
             | apply sends_local_quiet; reflexivity ]
      | intros]
  end.

Lemma sends_submit_creation (config : Config) (document_hash ipfs_cid : str)
    (required_signers : list str) (private_key title description : str)
    (sequential_signing : bool) :
  sends_at_most 1
    (submit_creation config document_hash ipfs_cid required_signers
       private_key title description sequential_signing).
Proof.
  unfold submit_creation.
  destruct (factory_address config) as [fa|];
    [destruct (truthy fa)|];
    try (apply sends_weaken with (n := 0); [lia | apply sends_raise]).
  do 2 quiet_step. cbv zeta. do 4 quiet_step.
  apply (@sends_bind _ _ 1 0); [apply sends_rpc | intros].
  quiet_step. apply sends_ret.
Qed.

Lemma sends_create_signing_contract (config : Config)
    (document_hash ipfs_cid : str) (required_signers : list str)
    (private_key title description : str) (sequential_signing : bool) :
  sends_at_most 1
    (create_signing_contract config document_hash ipfs_cid required_signers
       private_key title description sequential_signing).
Proof.
  unfold create_signing_contract.
  apply (@sends_try _ 1 0).
  - apply (@sends_bind _ _ 1 0);
      [apply sends_submit_creation | intros; apply sends_scan_logs].
  - intros e. quiet_step. apply sends_raise.
Qed.

Lemma sends_sign_document (contract_address private_key metadata : str) :
  sends_at_most 1 (sign_document contract_address private_key metadata).
Proof.
  unfold sign_document.
  apply (@sends_try _ 1 0).
  - do 2 quiet_step. cbv zeta. do 4 quiet_step.
    apply (@sends_bind _ _ 1 0); [apply sends_rpc | intros].
    quiet_step. apply sends_ret.
  - intros e. quiet_step. apply sends_raise.
Qed.

End Broadcasts.

(** C8: whatever the node answers, and whether or not the wait for the
    receipt succeeds, one run of [create_signing_contract] or [sign_document]
    calls [send_raw_transaction] at most once. *)
Theorem broadcast_at_most_once {W3 : Web3} :
  (forall config document_hash ipfs_cid required_signers private_key title
          description sequential_signing s,
     broadcasts
       (emitted (create_signing_contract config document_hash ipfs_cid
                   required_signers private_key title description
                   sequential_signing) s) <= 1)
  /\ (forall contract_address private_key metadata s,
        broadcasts
          (emitted (sign_document contract_address private_key metadata) s)
        <= 1).
Proof.
  split; intros.
  - apply sends_create_signing_contract.
  - apply sends_sign_document.
Qed.

(* ===================================================================== *)
(** * Missing factory address                                             *)
(* ===================================================================== *)

Section MissingFactory.

Context {W3 : Web3}.
Variable config : Config.
Hypothesis absent : configured (factory_address config) = false.

Lemma submit_creation_unconfigured (document_hash ipfs_cid : str)
    (required_signers : list str) (private_key title description : str)
    (sequential_signing : bool) (s : state) :
  submit_creation config document_hash ipfs_cid required_signers private_key
    title description sequential_signing s
  = (inl (ValueError (py "Factory address not configured")), s, []).
Proof.
  unfold submit_creation. unfold configured in absent.
  destruct (factory_address config) as [fa|]; [|reflexivity].
  rewrite absent. reflexivity.
Qed.

Lemma create_signing_contract_unconfigured (document_hash ipfs_cid : str)
    (required_signers : list str) (private_key title description : str)
    (sequential_signing : bool) (s : state) :
  create_signing_contract config document_hash ipfs_cid required_signers
    private_key title description sequential_signing s
  = (inl (ValueError (py "Factory address not configured")), s,
     [Logged ERROR (py "Error creating signing contract: "
                    ++ py "Factory address not configured")]).
Proof.
  unfold create_signing_contract, try_except, bind.
  rewrite submit_creation_unconfigured. reflexivity.
Qed.

Lemma get_user_contracts_unconfigured (user_address : str) (s : state) :
  get_user_contracts config user_address s = (inr [], s, []).
Proof.
  unfold get_user_contracts, try_except. unfold configured in absent.
  destruct (factory_address config) as [fa|]; [|reflexivity].
  rewrite absent. reflexivity.
Qed.

Lemma on_create_contract_unconfigured (uploaded_file : option UploadedFile)
    (initiator_key : str) (signers : list str) (title description : str)
    (sequential_signing : bool) (s : state) :
  exists evs,
    on_create_contract config uploaded_file initiator_key signers title
      description sequential_signing s = (inr tt, s, evs)
    /\ Forall (fun ev => is_call ev = false) evs.
Proof.
  unfold on_create_contract.
  destruct uploaded_file as [file|];
    [|eexists; split; [reflexivity | repeat constructor]].
  destruct (truthy initiator_key);
    [|eexists; split; [reflexivity | repeat constructor]].
  destruct (existsb truthy signers);
    [|eexists; split; [reflexivity | repeat constructor]].
  cbn [negb]. unfold try_except, bind, lift. cbv zeta.
  destruct (Account_from_key initiator_key) as [e|initiator_address].
  - eexists; split; [reflexivity | repeat constructor].
  - rewrite create_signing_contract_unconfigured.
    eexists; split; [reflexivity | repeat constructor].
Qed.

Lemma on_load_contracts_unconfigured
    (render_contract : contract_entry -> M unit)
    (user_address_input : str) (s : state) :
  truthy user_address_input = true ->
  on_load_contracts config render_contract user_address_input s
  = (inr tt, s, [Shown st_info (py "No contracts found for this address")]).
Proof.
  intros Hu. unfold on_load_contracts, try_except, bind. rewrite Hu.
  rewrite get_user_contracts_unconfigured. reflexivity.
Qed.

End MissingFactory.

(** C7: with no factory address configured, [create_signing_contract] raises
    the configuration error having only logged it (no node call, no
    transaction built, signed or sent), [get_user_contracts] returns the empty
    list without touching the node, and the two handlers that call them
    complete normally: the first shows an error and performs no node call,
    the second shows that no contracts were found. *)
Theorem missing_factory_degrades {W3 : Web3} (config : Config) :
  configured (factory_address config) = false ->
  (forall document_hash ipfs_cid required_signers private_key title
          description sequential_signing s,
     create_signing_contract config document_hash ipfs_cid required_signers
       private_key title description sequential_signing s
     = (inl (ValueError (py "Factory address not configured")), s,
        [Logged ERROR (py "Error creating signing contract: "
                       ++ py "Factory address not configured")]))
  /\ (forall user_address s,
        get_user_contracts config user_address s = (inr [], s, []))
  /\ (forall uploaded_file initiator_key signers title description
             sequential_signing s,
        exists evs,
          on_create_contract config uploaded_file initiator_key signers title
            description sequential_signing s = (inr tt, s, evs)
          /\ Forall (fun ev => is_call ev = false) evs)
  /\ (forall render_contract user_address_input s,
        truthy user_address_input = true ->
        on_load_contracts config render_contract user_address_input s
        = (inr tt, s,
           [Shown st_info (py "No contracts found for this address")])).
Proof.
  intros absent. repeat split; intros.
  - now apply create_signing_contract_unconfigured.
  - now apply get_user_contracts_unconfigured.
  - now apply on_create_contract_unconfigured.
  - now apply on_load_contracts_unconfigured.
Qed.

(** The statement applies to an unset variable and to an empty one. *)
Lemma missing_factory_degrades_witness :
  configured (factory_address (Demo.config None)) = false
  /\ configured (factory_address (Demo.config (Some []))) = false
  /\ @create_signing_contract (Demo.node Demo.quiet) (Demo.config None)
       (py "0xabc") (py "Qmabc") [py "0xA"] (py "key") (py "Lease")
       (py "Document for signing") false (Demo.start Demo.quiet)
     = (inl (ValueError (py "Factory address not configured")),
        Demo.start Demo.quiet,
        [Logged ERROR (py "Error creating signing contract: "
                       ++ py "Factory address not configured")])
  /\ @get_user_contracts (Demo.node Demo.quiet) (Demo.config (Some []))
       (py "0xA") (Demo.start Demo.quiet)
     = (inr [], Demo.start Demo.quiet, []).
Proof.
  split; [reflexivity | split; [reflexivity | split]].
  - apply (@missing_factory_degrades (Demo.node Demo.quiet)
             (Demo.config None) eq_refl).
  - apply (@missing_factory_degrades (Demo.node Demo.quiet)
             (Demo.config (Some [])) eq_refl).
Defined.

(* ===================================================================== *)
(** * Decoding the creation event                                         *)
(* ===================================================================== *)

Section CreationEvent.

Context {W3 : Web3}.
Variable factory : contract.

(** Logs that do not decode in front of one that does are skipped. *)
Lemma scan_logs_found (pre post : list Log) (log : Log)
    (decoded : ContractCreated) (s : state) :
  Forall (undecodable factory) pre ->
  processLog factory log = inr decoded ->
  scan_logs factory (pre ++ log :: post) s
  = (inr (contractAddress decoded), s, []).
Proof.
  intros Hpre Hlog. induction Hpre as [|l pre [e He] _ IH]; simpl.
  - now rewrite Hlog.
  - now rewrite He.
Qed.

Lemma scan_logs_none (logs : list Log) (s : state) :
  Forall (undecodable factory) logs ->
  scan_logs factory logs s = (inl not_found, s, []).
Proof.
  intros Hall. induction Hall as [|l logs [e He] _ IH]; simpl.
  - reflexivity.
  - now rewrite He.
Qed.

(** Every receipt either has a first decodable log or none at all. *)
Lemma first_decodable (logs : list Log) :
  Forall (undecodable factory) logs
  \/ exists pre log post decoded,
       logs = pre ++ log :: post
       /\ Forall (undecodable factory) pre
       /\ processLog factory log = inr decoded.
Proof.
  induction logs as [|l logs IH].
  - left. constructor.
  - destruct (processLog factory l) as [e|decoded] eqn:Hl.
    + destruct IH as [Hall | (pre & log & post & decoded & -> & Hpre & Hlog)].
      * left. constructor; [now exists e | assumption].
      * right. exists (l :: pre), log, post, decoded.
        repeat split; [|assumption]. constructor; [now exists e | assumption].
    + right. exists [], l, logs, decoded.
      repeat split; [constructor | assumption].
Qed.

End CreationEvent.

(** C1: once the creation transaction is confirmed with a receipt carrying
    [logs], [create_signing_contract] returns the [contractAddress] of the
    first log that decodes, whatever undecodable logs precede it and whatever
    follows it, and raises the not-found error (after logging it) when no log
    decodes; it raises exactly in that case. *)
Theorem creation_address_from_first_decodable_log {W3 : Web3}
    (config : Config) (document_hash ipfs_cid : str)
    (required_signers : list str) (private_key title description : str)
    (sequential_signing : bool) (s s1 : state) (factory : contract)
    (logs : list Log) (ev1 : list event) :
  submit_creation config document_hash ipfs_cid required_signers private_key
    title description sequential_signing s = (inr (factory, logs), s1, ev1) ->
  let create :=
    create_signing_contract config document_hash ipfs_cid required_signers
      private_key title description sequential_signing in
  (forall pre log post decoded,
     logs = pre ++ log :: post ->
     Forall (undecodable factory) pre ->
     processLog factory log = inr decoded ->
     create s = (inr (contractAddress decoded), s1, ev1))
  /\ (Forall (undecodable factory) logs ->
      create s
      = (inl not_found, s1,
         ev1 ++ [Logged ERROR (py "Error creating signing contract: "
                               ++ exn_str not_found)]))
  /\ ((exists e, outcome create s = inl e)
      <-> Forall (undecodable factory) logs).
Proof.
  intros Hsubmit create.
  assert (Hfound : forall pre log post decoded,
             logs = pre ++ log :: post ->
             Forall (undecodable factory) pre ->
             processLog factory log = inr decoded ->
             create s = (inr (contractAddress decoded), s1, ev1)).
  { intros pre log post decoded -> Hpre Hlog.
    unfold create, create_signing_contract, try_except, bind.
    rewrite Hsubmit. cbn [fst snd].
    erewrite scan_logs_found by eassumption. now rewrite app_nil_r. }
  assert (Hnone : Forall (undecodable factory) logs ->
             create s
             = (inl not_found, s1,
                ev1 ++ [Logged ERROR (py "Error creating signing contract: "
                                      ++ exn_str not_found)])).
  { intros Hall.
    unfold create, create_signing_contract, try_except, bind.
    rewrite Hsubmit. cbn [fst snd].
    rewrite scan_logs_none by assumption. now rewrite app_nil_r. }
  split; [exact Hfound | split; [exact Hnone |]].
  split.
  - intros [e He].
    destruct (first_decodable factory logs)
      as [Hall | (pre & log & post & decoded & Heq & Hpre & Hlog)];
      [assumption|].
    unfold outcome in He.
    rewrite (Hfound _ _ _ _ Heq Hpre Hlog) in He. discriminate.
  - intros Hall. exists not_found. unfold outcome. now rewrite (Hnone Hall).
Qed.

(** The receipt [[unrelated_log, creation_log]] on the scripted chain. *)
Lemma creation_address_witness :
  let node := Demo.node Demo.quiet in
  let create :=
    @create_signing_contract node (Demo.config (Some (py "0xF")))
      (py "0xabc") (py "Qmabc") [py "0xkey"; py "0xB"] (py "key")
      (py "Lease") (py "Document for signing") false in
  create (Demo.start Demo.quiet)
  = (inr (py "0xC0DE"),
     {| chain := (4 : @World node); last_contract := None |},
     snd (@submit_creation node (Demo.config (Some (py "0xF")))
            (py "0xabc") (py "Qmabc") [py "0xkey"; py "0xB"] (py "key")
            (py "Lease") (py "Document for signing") false
            (Demo.start Demo.quiet))).
Proof.
  intros node create.
  refine (proj1 (@creation_address_from_first_decodable_log node
            (Demo.config (Some (py "0xF"))) (py "0xabc") (py "Qmabc")
            [py "0xkey"; py "0xB"] (py "key") (py "Lease")
            (py "Document for signing") false (Demo.start Demo.quiet)
            _ _ _ _ eq_refl)
          [None] (Some (py "0xC0DE")) [] {| contractAddress := py "0xC0DE" |}
          eq_refl _ eq_refl).
  constructor; [|constructor].
  exists (Web3Exception (py "MismatchedABI")). reflexivity.
Defined.

(** The two receipts of the specification's example. *)
Example receipt_unrelated_then_creation :
  outcome
    (@create_signing_contract (Demo.node (Demo.with_logs
                                 [None; Some (py "0xC0DE")]))
       (Demo.config (Some (py "0xF"))) (py "0xabc") (py "Qmabc")
       [py "0xkey"] (py "key") (py "Lease") (py "Document for signing") false)
    (Demo.start _)
  = inr (py "0xC0DE").
Proof. reflexivity. Qed.

Example receipt_unrelated_only :
  outcome
    (@create_signing_contract (Demo.node (Demo.with_logs [None]))
       (Demo.config (Some (py "0xF"))) (py "0xabc") (py "Qmabc")
       [py "0xkey"] (py "key") (py "Lease") (py "Document for signing") false)
    (Demo.start _)
  = inl not_found.
Proof. reflexivity. Qed.

(* ===================================================================== *)
(** * Status reconciliation: proofs                                       *)
(* ===================================================================== *)

Section Reconciliation.

Context {W3 : Web3}.

(** On the codes an unsigned getter can return, [status_name] is the
    lifecycle table with [UNKNOWN] past its end. *)
Lemma status_name_nonnegative (code : Z) :
  (0 <= code)%Z -> status_name code = inr (lifecycle code).
Proof.
  intros Hpos. unfold status_name.
  change (Z.of_nat (length status_names)) with 4%Z.
  destruct (Z.ltb_spec code 4) as [Hlt|Hge].
  - assert (Hc : (code = 0 \/ code = 1 \/ code = 2 \/ code = 3)%Z) by lia.
    destruct Hc as [H | [H | [H | H]]]; subst code; reflexivity.
  - destruct code as [|p|p]; try lia.
    do 3 (destruct p as [p|p|]; try lia; try reflexivity).
Qed.

(** When the contract object is built and the seven reads succeed, the
    outcome of [get_contract_status] is decided by [status_name] alone, and
    the returned dictionary holds the values read. *)
Lemma get_contract_status_reads (contract_address : str) (c : contract)
    (s : state) (sigs : list pyval) (fully : bool) (signers : list str)
    (progress : Z * Z) (code : Z) (hash cid : pyval) (w' : World) :
  eth_contract contract_address SIGNER_ABI = inr c ->
  reads c (chain s) sigs fully signers progress code hash cid w' ->
  get_contract_status contract_address s
  = match status_name code with
    | inr name =>
        (inr {| signatures := sigs;
                is_fully_signed := fully;
                si_required_signers := signers;
                signed_count := fst progress;
                total_signers := snd progress;
                si_status := name;
                si_document_hash := hash;
                si_ipfs_cid := cid |},
         set_chain s w', read_events c)
    | inl e =>
        (inl e, set_chain s w',
         read_events c
         ++ [Logged ERROR (py "Error getting contract status: "
                           ++ exn_str e)])
    end.
Proof.
  intros Hc (w1 & w2 & w3 & w4 & w5 & w6
             & H1 & H2 & H3 & H4 & H5 & H6 & H7).
  unfold get_contract_status, try_except, bind, lift, rpc.
  rewrite Hc, H1. cbn [chain set_chain]. rewrite H2.
  cbn [chain set_chain]. rewrite H3. cbn [chain set_chain]. rewrite H4.
  cbn [chain set_chain]. rewrite H5. cbn [chain set_chain]. rewrite H6.
  cbn [chain set_chain]. rewrite H7. cbn [chain set_chain last_contract].
  destruct (status_name code) as [e|name]; reflexivity.
Qed.

End Reconciliation.

(** C3, for the codes an unsigned getter can return: codes 0 to 3 map to
    INITIATED, IN_PROGRESS, COMPLETED and CANCELLED, every larger code maps to
    UNKNOWN, and [get_contract_status] returns the snapshot carrying that name
    whenever its reads succeed. *)
Theorem status_code_mapping {W3 : Web3} (contract_address : str)
    (c : contract) (s : state) (sigs : list pyval) (fully : bool)
    (signers : list str) (progress : Z * Z) (code : Z) (hash cid : pyval)
    (w' : World) :
  (0 <= code)%Z ->
  eth_contract contract_address SIGNER_ABI = inr c ->
  reads c (chain s) sigs fully signers progress code hash cid w' ->
  status_name code = inr (lifecycle code)
  /\ ((3 < code)%Z -> lifecycle code = py "UNKNOWN")
  /\ exists snapshot,
       get_contract_status contract_address s
       = (inr snapshot, set_chain s w', read_events c)
       /\ si_status snapshot = lifecycle code.
Proof.
  intros Hpos Hc Hreads.
  pose proof (status_name_nonnegative Hpos) as Hname.
  split; [exact Hname | split].
  - intros Hbig. destruct code as [|p|p]; try lia.
    do 3 (destruct p as [p|p|]; try lia; try reflexivity).
  - erewrite get_contract_status_reads by eassumption. rewrite Hname.
    eexists. split; reflexivity.
Qed.

(** Code 7 on the scripted chain. *)
Lemma status_code_mapping_witness :
  let node := Demo.node (Demo.with_status [] false (0, 2)%Z 7%Z) in
  exists snapshot,
    @get_contract_status node (py "0xC1") (Demo.start _)
    = (inr snapshot,
       {| chain := (7 : @World node); last_contract := None |},
       read_events (Contract (py "0xC1") SIGNER_ABI))
    /\ si_status snapshot = py "UNKNOWN".
Proof.
  intros node.
  refine (proj2 (proj2 (@status_code_mapping node (py "0xC1")
            (Contract (py "0xC1") SIGNER_ABI) (Demo.start _)
            [] false [py "0xA"; py "0xB"] (0, 2)%Z 7%Z
            (PStr (py "0xabc")) (PStr (py "Qmabc")) (7 : @World node)
            _ eq_refl _))).
  - discriminate.
  - exists (1 : @World node), (2 : @World node), (3 : @World node),
      (4 : @World node), (5 : @World node), (6 : @World node).
    repeat split.
Defined.

(** C3 as stated fails on negative codes: the bound check lets them through
    to the list, where [-1] selects the last name and [-5] is out of range. *)
Lemma negative_status_code_not_unknown :
  (exists snapshot,
     outcome (@get_contract_status
                (Demo.node (Demo.with_status [] false (0, 2)%Z (-1)%Z))
                (py "0xC1")) (Demo.start _) = inr snapshot
     /\ si_status snapshot = py "CANCELLED"
     /\ si_status snapshot <> py "UNKNOWN")
  /\ outcome (@get_contract_status
                (Demo.node (Demo.with_status [] false (0, 2)%Z (-5)%Z))
                (py "0xC1")) (Demo.start _)
     = inl (IndexError (py "list index out of range")).
Proof.
  split; [|reflexivity].
  eexists. split; [reflexivity | split; [reflexivity | discriminate]].
Qed.

(** C4, as the code has it: the snapshot holds the values the getters
    returned, unchanged, so it satisfies the invariant exactly when those
    values do; in particular it does whenever the contract's answers are
    mutually consistent. *)
Theorem snapshot_copies_getters {W3 : Web3} (contract_address : str)
    (c : contract) (s : state) (sigs : list pyval) (fully : bool)
    (signers : list str) (progress : Z * Z) (code : Z) (hash cid : pyval)
    (w' : World) (name : str) :
  eth_contract contract_address SIGNER_ABI = inr c ->
  reads c (chain s) sigs fully signers progress code hash cid w' ->
  status_name code = inr name ->
  exists snapshot,
    get_contract_status contract_address s
    = (inr snapshot, set_chain s w', read_events c)
    /\ signatures snapshot = sigs
    /\ is_fully_signed snapshot = fully
    /\ signed_count snapshot = fst progress
    /\ total_signers snapshot = snd progress
    /\ (snapshot_invariant (signatures snapshot) (is_fully_signed snapshot)
          (signed_count snapshot) (total_signers snapshot)
        <-> snapshot_invariant sigs fully (fst progress) (snd progress)).
Proof.
  intros Hc Hreads Hname.
  erewrite get_contract_status_reads by eassumption. rewrite Hname.
  eexists. split; [reflexivity|].
  cbn [signatures is_fully_signed signed_count total_signers].
  do 4 (split; [reflexivity|]). apply iff_refl.
Qed.

(** Consistent answers on the scripted chain: no signature out of two. *)
Lemma snapshot_copies_getters_witness :
  let node := Demo.node Demo.quiet in
  exists snapshot,
    @get_contract_status node (py "0xC1") (Demo.start _)
    = (inr snapshot,
       {| chain := (7 : @World node); last_contract := None |},
       read_events (Contract (py "0xC1") SIGNER_ABI))
    /\ snapshot_invariant (signatures snapshot) (is_fully_signed snapshot)
         (signed_count snapshot) (total_signers snapshot).
Proof.
  intros node.
  destruct (@snapshot_copies_getters node (py "0xC1")
              (Contract (py "0xC1") SIGNER_ABI) (Demo.start _)
              [] false [py "0xA"; py "0xB"] (0, 2)%Z 0%Z
              (PStr (py "0xabc")) (PStr (py "Qmabc")) (7 : @World node)
              (py "INITIATED") eq_refl)
    as (snapshot & Hrun & _ & _ & _ & _ & Hinv).
  - exists (1 : @World node), (2 : @World node), (3 : @World node),
      (4 : @World node), (5 : @World node), (6 : @World node).
    repeat split.
  - reflexivity.
  - exists snapshot. split; [exact Hrun|]. apply Hinv.
    repeat split; simpl; try lia; discriminate.
Defined.

(** C4 as stated fails when the contract's answers disagree: no signature
    listed, progress reported as one of zero, and the fully-signed flag set. *)
Lemma inconsistent_getters_break_invariant :
  exists snapshot,
    outcome (@get_contract_status
               (Demo.node (Demo.with_status [] true (1, 0)%Z 0%Z))
               (py "0xC1")) (Demo.start _) = inr snapshot
    /\ signed_count snapshot <> Z.of_nat (length (signatures snapshot))
    /\ ~ (signed_count snapshot <= total_signers snapshot)%Z
    /\ is_fully_signed snapshot = true
    /\ signed_count snapshot <> total_signers snapshot
    /\ ~ snapshot_invariant (signatures snapshot) (is_fully_signed snapshot)
           (signed_count snapshot) (total_signers snapshot).
Proof.
  eexists. split; [reflexivity|]. cbn.
  repeat split; try discriminate; try lia.
  intros (H & _). discriminate.
Qed.

(* ===================================================================== *)
(** * Contract directory query: proofs                                    *)
(* ===================================================================== *)

Section Directory.

Context {W3 : Web3}.
Variable factory : contract.

(** The loop returns the accumulated list extended by the listing of the
    remaining addresses; it never raises. *)
Lemma enrich_all_listing (addresses : list str) :
  forall (contracts : list contract_entry) (s : state),
  exists entries s' evs,
    listing factory s addresses entries s' evs
    /\ enrich_all factory addresses contracts s
       = (inr (contracts ++ entries), s', evs).
Proof.
  induction addresses as [|a rest IH]; intros contracts s.
  - exists [], s, []. split; [constructor|].
    simpl. unfold ret. now rewrite app_nil_r.
  - cbn [enrich_all]. unfold bind at 1. unfold try_except, bind at 1.
    destruct (enrich factory a s) as [[[e|entry] s1] ev1] eqn:Hen.
    + cbn. destruct (IH contracts s1) as (entries & s' & evs & Hl & Hrun).
      rewrite Hrun.
      exists entries, s', (ev1 ++ Logged WARNING
                             (py "Error getting info for contract " ++ a
                              ++ py ": " ++ exn_str e) :: evs).
      split; [now apply listing_skip with (s1 := s1)|].
      now rewrite <- app_assoc.
    + cbn. destruct (IH (contracts ++ [entry]) s1)
        as (entries & s' & evs & Hl & Hrun).
      rewrite Hrun.
      exists (entry :: entries), s', (ev1 ++ evs).
      split; [now apply listing_keep with (s1 := s1)|].
      now rewrite app_nil_r, <- app_assoc.
Qed.

(** A listing is determined by the addresses and the starting state. *)
Lemma listing_deterministic (addresses : list str) (s : state)
    (entries entries' : list contract_entry) (s1 s2 : state)
    (ev1 ev2 : list event) :
  listing factory s addresses entries s1 ev1 ->
  listing factory s addresses entries' s2 ev2 ->
  entries = entries' /\ s1 = s2 /\ ev1 = ev2.
Proof.
  intros H. revert entries' s2 ev2.
  induction H as [s | s a rest entry sa eva entries sb evb Hen _ IH
                    | s a rest e sa eva entries sb evb Hen _ IH];
    intros entries' s2 ev2 H'; inversion H'; subst.
  - auto.
  - match goal with
    | H1 : enrich factory a s = _, H2 : enrich factory a s = _ |- _ =>
        rewrite H1 in H2; inversion H2; subst
    end.
    match goal with
    | H : listing factory _ rest _ _ _ |- _ =>
        destruct (IH _ _ _ H) as (-> & -> & ->)
    end. auto.
  - match goal with
    | H1 : enrich factory a s = _, H2 : enrich factory a s = _ |- _ =>
        rewrite H1 in H2; discriminate
    end.
  - match goal with
    | H1 : enrich factory a s = _, H2 : enrich factory a s = _ |- _ =>
        rewrite H1 in H2; discriminate
    end.
  - match goal with
    | H1 : enrich factory a s = _, H2 : enrich factory a s = _ |- _ =>
        rewrite H1 in H2; inversion H2; subst
    end.
    match goal with
    | H : listing factory _ rest _ _ _ |- _ =>
        destruct (IH _ _ _ H) as (-> & -> & ->)
    end. auto.
Qed.

(** The entries of a listing are entries of enumerated addresses, in the
    order of the enumeration. *)
Lemma listing_addresses (addresses : list str) (s s' : state)
    (entries : list contract_entry) (evs : list event) :
  listing factory s addresses entries s' evs ->
  exists keep : list bool,
    length keep = length addresses
    /\ map ce_address entries
       = map snd (filter fst (combine keep addresses)).
Proof.
  assert (Haddr : forall a s0 entry s1 ev1,
             enrich factory a s0 = (inr entry, s1, ev1) ->
             ce_address entry = a).
  { intros a s0 entry s1 ev1. unfold enrich, bind, index, rpc.
    destruct (getContractInfo factory a (chain s0)) as [[e|info] w];
      [discriminate|].
    destruct (get_contract_status a (set_chain s0 w)) as [[[e|si] s2] ev2];
      [discriminate|].
    repeat match goal with
           | |- context [getitem info ?i] => destruct (getitem info i)
           end;
      cbn; intros H; inversion H; reflexivity. }
  induction 1 as [s | s a rest entry sa eva entries sb evb Hen _ IH
                    | s a rest e sa eva entries sb evb Hen _ IH].
  - exists []. split; reflexivity.
  - destruct IH as (keep & Hlen & Hmap).
    exists (true :: keep). split; [simpl; now rewrite Hlen|].
    simpl. now rewrite Hmap, (Haddr _ _ _ _ _ Hen).
  - destruct IH as (keep & Hlen & Hmap).
    exists (false :: keep). split; [simpl; now rewrite Hlen|].
    simpl. exact Hmap.
Qed.

(** Three addresses of which the second cannot be enriched: the first and
    the third entries are returned and the failure is logged in between. *)
Lemma second_of_three_fails (a1 a2 a3 : str) (e1 e3 : contract_entry)
    (x : exn) (s s1 s2 s3 : state) (ev1 ev2 ev3 : list event) :
  enrich factory a1 s = (inr e1, s1, ev1) ->
  enrich factory a2 s1 = (inl x, s2, ev2) ->
  enrich factory a3 s2 = (inr e3, s3, ev3) ->
  enrich_all factory [a1; a2; a3] [] s
  = (inr [e1; e3], s3,
     ev1 ++ ev2
     ++ Logged WARNING (py "Error getting info for contract " ++ a2
                        ++ py ": " ++ exn_str x) :: ev3).
Proof.
  intros H1 H2 H3.
  destruct (enrich_all_listing [a1; a2; a3] [] s)
    as (entries & s' & evs & Hl & Hrun).
  assert (Hl' : listing factory s [a1; a2; a3] [e1; e3] s3
                  (ev1 ++ ev2
                   ++ Logged WARNING (py "Error getting info for contract "
                                      ++ a2 ++ py ": " ++ exn_str x)
                      :: ev3 ++ [])).
  { eapply listing_keep; [exact H1|].
    eapply listing_skip; [exact H2|].
    eapply listing_keep; [exact H3|]. constructor. }
  destruct (listing_deterministic Hl Hl') as (-> & -> & ->).
  rewrite Hrun, app_nil_r. reflexivity.
Qed.

End Directory.

(** C5: when the factory's index enumerates [addresses],
    [get_user_contracts] returns the listing of those addresses: visited in
    order, an address whose enrichment succeeds contributes its entry, one
    whose enrichment raises is logged with a warning and skipped, and the
    remaining addresses are still visited. *)
Theorem get_user_contracts_skips_failures {W3 : Web3} (config : Config)
    (user_address configured_address : str) (factory : contract)
    (addresses : list str) (s : state) (w1 : World) :
  factory_address config = Some configured_address ->
  truthy configured_address = true ->
  eth_contract configured_address FACTORY_ABI = inr factory ->
  getContractsByInitiator factory user_address (chain s)
  = (inr addresses, w1) ->
  exists entries s' evs,
    listing factory (set_chain s w1) addresses entries s' evs
    /\ get_user_contracts config user_address s
       = (inr entries, s',
          Called (op_call factory (py "getContractsByInitiator")) :: evs).
Proof.
  intros Hfa Htruthy Hfactory Henum.
  destruct (enrich_all_listing factory addresses [] (set_chain s w1))
    as (entries & s' & evs & Hl & Hrun).
  exists entries, s', evs. split; [exact Hl|].
  unfold get_user_contracts, try_except, bind, lift, rpc.
  rewrite Hfa, Htruthy, Hfactory, Henum, Hrun. reflexivity.
Qed.

(** Three addresses enumerated, the second unreachable. *)
Lemma get_user_contracts_skips_failures_witness :
  let node := Demo.node Demo.quiet in
  let factory := Contract (py "0xF") FACTORY_ABI in
  exists entries s' evs,
    listing factory
      {| chain := (1 : @World node); last_contract := None |}
      [py "0xC1"; py "0xC2"; py "0xC3"] entries s' evs
    /\ @get_user_contracts node (Demo.config (Some (py "0xF"))) (py "0xA")
         (Demo.start Demo.quiet)
       = (inr entries, s',
          Called (op_call factory (py "getContractsByInitiator")) :: evs).
Proof.
  intros node factory.
  exact (@get_user_contracts_skips_failures node
           (Demo.config (Some (py "0xF"))) (py "0xA") (py "0xF") factory
           [py "0xC1"; py "0xC2"; py "0xC3"] (Demo.start Demo.quiet)
           (1 : @World node) eq_refl eq_refl eq_refl eq_refl).
Defined.

(** The example of the specification: the first and third entries are
    returned, enriched, and the failure of the second is logged. *)
Example listing_second_of_three_fails :
  let run :=
    @get_user_contracts (Demo.node Demo.quiet)
      (Demo.config (Some (py "0xF"))) (py "0xA") (Demo.start Demo.quiet) in
  map ce_address (match fst (fst run) with inr l => l | inl _ => [] end)
  = [py "0xC1"; py "0xC3"]
  /\ map ce_progress (match fst (fst run) with inr l => l | inl _ => [] end)
     = [py "0/2"; py "0/2"]
  /\ In (Logged WARNING (py "Error getting info for contract 0xC2: "
                         ++ py "execution reverted")) (snd run).
Proof.
  split; [reflexivity | split; [reflexivity|]].
  vm_compute. tauto.
Qed.

(** C10: [get_user_contracts] returns a list from every state and for every
    configuration; when the enumeration call itself raises, the error is
    logged and the list is empty, the same value an initiator without
    contracts gets. *)
Theorem get_user_contracts_never_raises {W3 : Web3} (config : Config)
    (user_address : str) (s : state) :
  (exists contracts s' evs,
     get_user_contracts config user_address s = (inr contracts, s', evs))
  /\ (forall configured_address factory e w1,
        factory_address config = Some configured_address ->
        truthy configured_address = true ->
        eth_contract configured_address FACTORY_ABI = inr factory ->
        getContractsByInitiator factory user_address (chain s)
        = (inl e, w1) ->
        get_user_contracts config user_address s
        = (inr [], set_chain s w1,
           [Called (op_call factory (py "getContractsByInitiator"));
            Logged ERROR (py "Error getting user contracts: "
                          ++ exn_str e)]))
  /\ (forall configured_address factory w1,
        factory_address config = Some configured_address ->
        truthy configured_address = true ->
        eth_contract configured_address FACTORY_ABI = inr factory ->
        getContractsByInitiator factory user_address (chain s)
        = (inr [], w1) ->
        get_user_contracts config user_address s
        = (inr [], set_chain s w1,
           [Called (op_call factory (py "getContractsByInitiator"))])).
Proof.
  split; [|split].
  - unfold get_user_contracts, try_except.
    destruct (factory_address config) as [fa|];
      [|eexists _, _, _; reflexivity].
    destruct (truthy fa); [|eexists _, _, _; reflexivity].
    unfold bind at 1, lift.
    destruct (eth_contract fa FACTORY_ABI) as [e|factory];
      [eexists _, _, _; reflexivity|].
    unfold bind at 1, rpc.
    destruct (getContractsByInitiator factory user_address (chain s))
      as [[e|addresses] w1]; [eexists _, _, _; reflexivity|].
    destruct (enrich_all_listing factory addresses [] (set_chain s w1))
      as (entries & s' & evs & _ & Hrun).
    rewrite Hrun. eexists _, _, _; reflexivity.
  - intros fa factory e w1 Hfa Htruthy Hfactory Henum.
    unfold get_user_contracts, try_except, bind, lift, rpc.
    rewrite Hfa, Htruthy, Hfactory, Henum. reflexivity.
  - intros fa factory w1 Hfa Htruthy Hfactory Henum.
    unfold get_user_contracts, try_except, bind, lift, rpc.
    rewrite Hfa, Htruthy, Hfactory, Henum. reflexivity.
Qed.

(** An enumeration that fails on the scripted chain. *)
Lemma get_user_contracts_never_raises_witness :
  let node :=
    Demo.node (Demo.with_initiated
                 (inl (Web3Exception (py "connection refused")))) in
  @get_user_contracts node (Demo.config (Some (py "0xF"))) (py "0xA")
    (Demo.start _)
  = (inr [], {| chain := (1 : @World node); last_contract := None |},
     [Called (op_call (Contract (py "0xF") FACTORY_ABI)
                (py "getContractsByInitiator"));
      Logged ERROR (py "Error getting user contracts: "
                    ++ py "connection refused")]).
Proof.
  intros node.
  exact (proj1 (proj2 (@get_user_contracts_never_raises node
           (Demo.config (Some (py "0xF"))) (py "0xA") (Demo.start _)))
           (py "0xF") (Contract (py "0xF") FACTORY_ABI)
           (Web3Exception (py "connection refused")) (1 : @World node)
           eq_refl eq_refl eq_refl eq_refl).
Defined.

(* ===================================================================== *)
(** * What the create handler submits                                     *)
(* ===================================================================== *)

Section Submitted.
Context {W3 : Web3}.

Lemma scan_logs_silent (factory : contract) (logs : list Log) (s : state) :
  exists r, scan_logs factory logs s = (r, s, []).
Proof.
  induction logs as [|log logs IH]; simpl; [eexists; reflexivity|].
  destruct (processLog factory log); [exact IH | eexists; reflexivity].
Qed.

Ltac run_step :=
  match goal with
  | H : context [match ?x with _ => _ end] |- _ =>
      lazymatch x with
      | context [match _ with _ => _ end] => fail
      | _ => destruct x eqn:?
      end
  end.

Lemma submit_creation_builds (config : Config) (document_hash ipfs_cid : str)
    (required_signers : list str) (private_key title description : str)
    (sequential_signing : bool) (s : state) (c : contract)
    (f : contract_function) (p : tx_params) :
  In (Called (op_build_transaction c f p))
    (emitted (submit_creation config document_hash ipfs_cid required_signers
                private_key title description sequential_signing) s) ->
  f = createSigningContract document_hash ipfs_cid required_signers
        sequential_signing title description.
Proof.
  unfold emitted, submit_creation, bind, lift, rpc, local, ret, raise.
  intros H.
  repeat (run_step; cbn [snd fst app In] in H);
    repeat match goal with
           | H : _ \/ _ |- _ => destruct H
           | H : False |- _ => contradiction
           | H : Called _ = Called _ |- _ => inversion H; clear H; subst
           end; try reflexivity.
Qed.

Ltac split_trace H :=
  unfold log_error, show, emit, raise, ret in H;
  cbn [fst snd app negb] in *; rewrite ?in_app_iff in H; cbn [In] in H;
  repeat match goal with
         | H' : _ \/ _ |- _ => destruct H'
         | H' : False |- _ => contradiction
         end;
  try discriminate.

Lemma create_signing_contract_builds (config : Config)
    (document_hash ipfs_cid : str) (required_signers : list str)
    (private_key title description : str) (sequential_signing : bool)
    (s : state) (c : contract) (f : contract_function) (p : tx_params) :
  In (Called (op_build_transaction c f p))
    (emitted (create_signing_contract config document_hash ipfs_cid
                required_signers private_key title description
                sequential_signing) s) ->
  f = createSigningContract document_hash ipfs_cid required_signers
        sequential_signing title description.
Proof.
  pose proof (@submit_creation_builds config document_hash ipfs_cid
                required_signers private_key title description
                sequential_signing s c f p) as Hsub.
  unfold emitted, create_signing_contract, try_except, bind in *.
  destruct (submit_creation config document_hash ipfs_cid required_signers
              private_key title description sequential_signing s)
    as [[[e|[factory logs]] s1] ev1].
  - intros H. split_trace H. now apply Hsub.
  - cbn [fst snd]. destruct (scan_logs_silent factory logs s1) as [[e|a] Hr];
      rewrite Hr; intros H; split_trace H; now apply Hsub.
Qed.

Lemma on_create_contract_submits (config : Config)
    (uploaded_file : option UploadedFile) (initiator_key : str)
    (signers : list str) (title description : str)
    (sequential_signing : bool) (s : state) (c : contract)
    (f : contract_function) (p : tx_params) :
  In (Called (op_build_transaction c f p))
    (emitted (on_create_contract config uploaded_file initiator_key signers
                title description sequential_signing) s) ->
  exists file initiator_address,
    uploaded_file = Some file
    /\ Account_from_key initiator_key = inr initiator_address
    /\ f = createSigningContract (hash_document (content file))
             (upload_to_ipfs (content file) (name file))
             (required_signers_of initiator_address signers)
             sequential_signing title description.
Proof.
  unfold emitted, on_create_contract.
  destruct uploaded_file as [file|]; [|intros H; now split_trace H].
  destruct (truthy initiator_key); [|intros H; now split_trace H].
  destruct (existsb truthy signers); [|intros H; now split_trace H].
  cbn [negb]. unfold try_except, bind at 1, lift. cbv zeta.
  destruct (Account_from_key initiator_key) as [e|initiator_address];
    [intros H; now split_trace H|].
  intros H. exists file, initiator_address. repeat split.
  pose proof (@create_signing_contract_builds config
                (hash_document (content file))
                (upload_to_ipfs (content file) (name file))
                (required_signers_of initiator_address signers)
                initiator_key title description sequential_signing s c f p)
    as Hcreate.
  unfold emitted in Hcreate. unfold bind, show, emit in H.
  destruct (create_signing_contract config (hash_document (content file))
              (upload_to_ipfs (content file) (name file))
              (required_signers_of initiator_address signers)
              initiator_key title description sequential_signing s)
    as [[[e|a] s1] ev1]; cbn [fst snd app] in *.
  - split_trace H. now apply Hcreate.
  - split_trace H. now apply Hcreate.
Qed.
End Submitted.

(** On the scripted chain one creation broadcasts exactly once, and the
    transaction built for the form input [[A, B, A, C]] names [A, B, C]. *)
Example creation_broadcasts_once :
  broadcasts
    (emitted
       (@create_signing_contract (Demo.node Demo.quiet)
          (Demo.config (Some (py "0xF"))) (py "0xabc") (py "Qmabc")
          [py "0xkey"] (py "key") (py "Lease") (py "Document for signing")
          false)
       (Demo.start Demo.quiet))
  = 1.
Proof. reflexivity. Qed.

Example create_handler_submits_ABC :
  let file := {| name := py "lease.txt";
                 content := list_byte_of_string "abc" |} in
  exists c p,
    In (Called
          (op_build_transaction c
             (createSigningContract
                (hash_document (content file))
                (upload_to_ipfs (content file) (name file))
                [py "0xA"; py "0xB"; py "0xC"] false (py "Lease")
                (py "Document for signing")) p))
      (emitted
         (@on_create_contract (Demo.node Demo.quiet)
            (Demo.config (Some (py "0xF"))) (Some file) (py "A")
            [py "0xA"; py "0xB"; py "0xA"; py "0xC"] (py "Lease")
            (py "Document for signing") false)
         (Demo.start Demo.quiet)).
Proof.
  intros file. eexists _, _. vm_compute. right. left. reflexivity.
Qed.

(* ===================================================================== *)
(** * Configuration: proofs                                               *)
(* ===================================================================== *)

Section Configuration.

Lemma str_eqb_eq (a b : str) : str_eqb a b = true <-> a = b.
Proof.
  unfold str_eqb. destruct (str_eq_dec a b); split; congruence.
Qed.

Lemma str_eqb_refl (a : str) : str_eqb a a = true.
Proof. now apply str_eqb_eq. Qed.

Lemma endpoint_supported (env : environ) (e : str) :
  (exists r, endpoint env e = inr r)
  <-> e = py "development" \/ e = py "goerli" \/ e = py "sepolia".
Proof.
  unfold endpoint.
  destruct (str_eqb e (py "development")) eqn:Hd.
  { apply str_eqb_eq in Hd. split; [auto | eexists; reflexivity]. }
  destruct (str_eqb e (py "goerli")) eqn:Hg.
  { apply str_eqb_eq in Hg. split; [auto | eexists; reflexivity]. }
  destruct (str_eqb e (py "sepolia")) eqn:Hs.
  { apply str_eqb_eq in Hs. split; [auto | eexists; reflexivity]. }
  split.
  - intros [r Hr]. discriminate.
  - intros [H | [H | H]]; subst e; discriminate.
Qed.

End Configuration.

(** X1: [Config()] succeeds exactly for the environments [development]
    (also when [ENVIRONMENT] is unset), [goerli] and [sepolia], compared
    exactly as written; any other value raises [ValueError] naming it.  On
    success the chain id is 31337, 5 or 11155111, the factory address is read
    from [FACTORY_ADDRESS_DEVELOPMENT], [FACTORY_ADDRESS_GOERLI] or
    [FACTORY_ADDRESS_SEPOLIA] respectively, and a missing [INFURA_PROJECT_ID]
    is not an error: the endpoint then ends in the text [None]. *)
Theorem Config_init_networks (env : environ) :
  ((exists settings, Config_init env = inr settings)
   <-> selected env = py "development" \/ selected env = py "goerli"
       \/ selected env = py "sepolia")
  /\ (forall e, Config_init env = inl e ->
        e = ValueError (py "Unsupported environment: " ++ selected env))
  /\ (env (py "ENVIRONMENT") = None -> selected env = py "development")
  /\ (forall settings, Config_init env = inr settings ->
        environment (base settings) = selected env
        /\ ((selected env = py "development"
             /\ chain_id (base settings) = 31337%Z
             /\ rpc_url (base settings) = py "http://127.0.0.1:8545"
             /\ factory_address (base settings)
                = env (py "FACTORY_ADDRESS_DEVELOPMENT"))
            \/ (selected env = py "goerli"
                /\ chain_id (base settings) = 5%Z
                /\ factory_address (base settings)
                   = env (py "FACTORY_ADDRESS_GOERLI")
                /\ (env (py "INFURA_PROJECT_ID") = None ->
                    rpc_url (base settings)
                    = py "https://goerli.infura.io/v3/None"))
            \/ (selected env = py "sepolia"
                /\ chain_id (base settings) = 11155111%Z
                /\ factory_address (base settings)
                   = env (py "FACTORY_ADDRESS_SEPOLIA")
                /\ (env (py "INFURA_PROJECT_ID") = None ->
                    rpc_url (base settings)
                    = py "https://sepolia.infura.io/v3/None")))).
Proof.
  unfold Config_init. fold (selected env).
  remember (selected env) as e eqn:He. split; [|split; [|split]].
  - pose proof (endpoint_supported env e) as Hsup. unfold load_config.
    destruct (endpoint env e) as [x|[url id]]; split.
    + intros [r Hr]. discriminate.
    + intros H. apply Hsup in H. destruct H as [r Hr]. discriminate.
    + intros _. apply Hsup. eexists; reflexivity.
    + intros _. eexists; reflexivity.
  - intros x. unfold load_config, endpoint.
    destruct (str_eqb e (py "development")); [discriminate|].
    destruct (str_eqb e (py "goerli")); [discriminate|].
    destruct (str_eqb e (py "sepolia")); [discriminate|].
    intros H. now inversion H.
  - intros Hunset. rewrite He. unfold selected, getenv_default.
    now rewrite Hunset.
  - intros settings. clear He. unfold load_config, endpoint.
    destruct (str_eqb e (py "development")) eqn:Hd.
    { apply str_eqb_eq in Hd. subst e. intros H. inversion H. subst settings.
      split; [reflexivity|]. left. repeat split. }
    destruct (str_eqb e (py "goerli")) eqn:Hg.
    { apply str_eqb_eq in Hg. subst e. intros H. inversion H. subst settings.
      split; [reflexivity|]. right. left.
      split; [reflexivity | split; [reflexivity | split; [reflexivity|]]].
      cbn [base rpc_url]. intros ->. reflexivity. }
    destruct (str_eqb e (py "sepolia")) eqn:Hs.
    { apply str_eqb_eq in Hs. subst e. intros H. inversion H. subst settings.
      split; [reflexivity|]. right. right.
      split; [reflexivity | split; [reflexivity | split; [reflexivity|]]].
      cbn [base rpc_url]. intros ->. reflexivity. }
    discriminate.
Qed.

(** Goerli selected, no Infura project id. *)
Lemma Config_init_networks_witness :
  exists settings,
    Config_init goerli_env = inr settings
    /\ chain_id (base settings) = 5%Z
    /\ factory_address (base settings) = Some (py "0xF")
    /\ rpc_url (base settings) = py "https://goerli.infura.io/v3/None".
Proof.
  destruct (Config_init_networks goerli_env) as (Hsup & _ & _ & Hrows).
  destruct (proj2 Hsup) as [settings Hs]; [right; left; reflexivity|].
  exists settings. split; [exact Hs|].
  destruct (Hrows settings Hs)
    as (_ & [(H & _) | [(_ & Hid & Hfa & Hurl) | (H & _)]]).
  - discriminate H.
  - split; [exact Hid | split; [exact Hfa | exact (Hurl eq_refl)]].
  - discriminate H.
Defined.

Section ConfiguredFactory.

Context {W3 : Web3}.

Lemma Config_init_factory (env : environ) (settings : Settings) :
  Config_init env = inr settings ->
  factory_address (base settings) = env (factory_variable (selected env)).
Proof.
  unfold Config_init. fold (selected env). unfold load_config.
  destruct (endpoint env (selected env)) as [e|[url id]]; [discriminate|].
  intros H. inversion H. reflexivity.
Qed.

End ConfiguredFactory.

(** X2: if [Config()] succeeds and the factory variable of the selected
    network is unset or empty, whatever the variables of the other networks
    hold, then under that configuration [create_signing_contract] raises the
    configuration error without calling the node and [get_user_contracts]
    returns the empty list without calling the node. *)
Theorem unset_factory_variable_degrades {W3 : Web3} (env : environ)
    (settings : Settings) :
  Config_init env = inr settings ->
  env (factory_variable (selected env)) = None
  \/ env (factory_variable (selected env)) = Some [] ->
  (forall document_hash ipfs_cid required_signers private_key title
          description sequential_signing s,
     create_signing_contract (base settings) document_hash ipfs_cid
       required_signers private_key title description sequential_signing s
     = (inl (ValueError (py "Factory address not configured")), s,
        [Logged ERROR (py "Error creating signing contract: "
                       ++ py "Factory address not configured")]))
  /\ (forall user_address s,
        get_user_contracts (base settings) user_address s = (inr [], s, [])).
Proof.
  intros Hinit Hunset.
  assert (Habsent : configured (factory_address (base settings)) = false).
  { rewrite (Config_init_factory env Hinit).
    destruct Hunset as [-> | ->]; reflexivity. }
  split; intros.
  - now apply create_signing_contract_unconfigured.
  - now apply get_user_contracts_unconfigured.
Qed.

(** Goerli selected, only the sepolia factory variable set. *)
Lemma unset_factory_variable_degrades_witness :
  exists settings,
    Config_init goerli_env_without_factory = inr settings
    /\ @get_user_contracts (Demo.node Demo.quiet) (base settings) (py "0xA")
         (Demo.start Demo.quiet)
       = (inr [], Demo.start Demo.quiet, []).
Proof.
  eexists. split; [reflexivity|].
  refine (proj2 (@unset_factory_variable_degrades (Demo.node Demo.quiet)
                   goerli_env_without_factory _ eq_refl _) _ _).
  left. reflexivity.
Defined.

(* ===================================================================== *)
(** * ABI loading: proofs                                                 *)
(* ===================================================================== *)

Section AbiLoading.

Variable fs : filesystem.
Variables environment contract_name : str.

Lemma subscript_value (document value : json) (key : str) :
  subscript document key = inr value
  <-> exists members,
        document = JObject members /\ member key members = Some value.
Proof.
  unfold subscript. split.
  - destruct document as [| | | | | |members]; try discriminate.
    destruct (member key members) as [v|] eqn:Hm; [|discriminate].
    intros H. inversion H. subst. now exists members.
  - intros (members & -> & ->). reflexivity.
Qed.

Lemma find_abi_paths :
  find_abi fs environment contract_name
  = match fs (artifacts_path contract_name) with
    | Parsed artifact => subscript artifact (py "abi")
    | Broken e => inl e
    | Absent =>
        match fs (deployment_path environment) with
        | Broken e => inl e
        | Parsed _ | Absent =>
            match fs (build_path contract_name) with
            | Parsed contract_data => subscript contract_data (py "abi")
            | Broken e => inl e
            | Absent => inr JNull
            end
        end
    end.
Proof. reflexivity. Qed.

End AbiLoading.

(** X3: [load_contract_abi] returns a value other than [None] in exactly two
    situations: the Hardhat artifact exists and is an object with an [abi]
    member (that member is returned); or the artifact does not exist, the
    deployments file of the environment is absent or parses, and the Truffle
    build file exists and is an object with an [abi] member.  There is no
    fall-back from an artifact that exists but yields no ABI. *)
Theorem load_contract_abi_sources (fs : filesystem)
    (environment contract_name : str) (abi : json) :
  abi <> JNull ->
  (fst (load_contract_abi fs environment contract_name) = abi
   <-> (exists members,
          fs (artifacts_path contract_name) = Parsed (JObject members)
          /\ member (py "abi") members = Some abi)
       \/ (fs (artifacts_path contract_name) = Absent
           /\ (forall e, fs (deployment_path environment) <> Broken e)
           /\ exists members,
                fs (build_path contract_name) = Parsed (JObject members)
                /\ member (py "abi") members = Some abi)).
Proof.
  intros Hnot. unfold load_contract_abi. rewrite find_abi_paths.
  destruct (fs (artifacts_path contract_name)) as [|e|artifact] eqn:Ha.
  - destruct (fs (deployment_path environment)) as [|e|deployment] eqn:Hd.
    + destruct (fs (build_path contract_name)) as [|e|data] eqn:Hb.
      * cbn. split; [intros H; now subst|].
        intros [(m & H & _) | (_ & _ & m & H & _)]; discriminate.
      * cbn. split; [intros H; now subst|].
        intros [(m & H & _) | (_ & _ & m & H & _)]; discriminate.
      * destruct (subscript data (py "abi")) as [e|v] eqn:Hs; cbn.
        -- split; [intros H; now subst|].
           intros [(m & H & _) | (_ & _ & m & H & Hm)]; [discriminate|].
           inversion H. subst data.
           assert (Hv : subscript (JObject m) (py "abi") = inr abi)
             by (apply subscript_value; now exists m).
           rewrite Hv in Hs. discriminate.
        -- split.
           ++ intros ->. right. split; [reflexivity|]. split; [discriminate|].
              apply subscript_value in Hs. destruct Hs as (m & -> & Hm).
              now exists m.
           ++ intros [(m & H & _) | (_ & _ & m & H & Hm)]; [discriminate|].
              inversion H. subst data.
              assert (Hv : subscript (JObject m) (py "abi") = inr abi)
                by (apply subscript_value; now exists m).
              rewrite Hv in Hs. now inversion Hs.
    + cbn. split; [intros H; now subst|].
      intros [(m & H & _) | (_ & Hd' & _)]; [discriminate|].
      now elim (Hd' e).
    + destruct (fs (build_path contract_name)) as [|e|data] eqn:Hb.
      * cbn. split; [intros H; now subst|].
        intros [(m & H & _) | (_ & _ & m & H & _)]; discriminate.
      * cbn. split; [intros H; now subst|].
        intros [(m & H & _) | (_ & _ & m & H & _)]; discriminate.
      * destruct (subscript data (py "abi")) as [e|v] eqn:Hs; cbn.
        -- split; [intros H; now subst|].
           intros [(m & H & _) | (_ & _ & m & H & Hm)]; [discriminate|].
           inversion H. subst data.
           assert (Hv : subscript (JObject m) (py "abi") = inr abi)
             by (apply subscript_value; now exists m).
           rewrite Hv in Hs. discriminate.
        -- split.
           ++ intros ->. right. split; [reflexivity|]. split; [discriminate|].
              apply subscript_value in Hs. destruct Hs as (m & -> & Hm).
              now exists m.
           ++ intros [(m & H & _) | (_ & _ & m & H & Hm)]; [discriminate|].
              inversion H. subst data.
              assert (Hv : subscript (JObject m) (py "abi") = inr abi)
                by (apply subscript_value; now exists m).
              rewrite Hv in Hs. now inversion Hs.
  - cbn. split; [intros H; now subst|].
    intros [(m & H & _) | (H & _)]; discriminate.
  - destruct (subscript artifact (py "abi")) as [e|v] eqn:Hs; cbn.
    + split; [intros H; now subst|].
      intros [(m & H & Hm) | (H & _)]; [|discriminate].
      inversion H. subst artifact.
      assert (Hv : subscript (JObject m) (py "abi") = inr abi)
        by (apply subscript_value; now exists m).
      rewrite Hv in Hs. discriminate.
    + split.
      * intros ->. left. apply subscript_value in Hs.
        destruct Hs as (m & -> & Hm). now exists m.
      * intros [(m & H & Hm) | (H & _)]; [|discriminate].
        inversion H. subst artifact.
        assert (Hv : subscript (JObject m) (py "abi") = inr abi)
          by (apply subscript_value; now exists m).
        rewrite Hv in Hs. now inversion Hs.
Qed.

(** A disk holding only the Truffle build. *)
Lemma load_contract_abi_sources_witness :
  fst (load_contract_abi truffle_disk (py "development")
         (py "DocumentSignerFactory"))
  = JArray [JObject [(py "type", JString (py "event"))]].
Proof.
  apply (load_contract_abi_sources truffle_disk (py "development")
           (py "DocumentSignerFactory")); [discriminate|].
  right. split; [reflexivity|]. split; [discriminate|].
  eexists. split; reflexivity.
Defined.

(** X4: the deployments file is opened and parsed although nothing is read
    from it; if the artifact is absent and that file exists but cannot be
    opened or parsed, [load_contract_abi] logs the failure and returns [None]
    without looking at the Truffle build, valid or not. *)
Theorem broken_deployment_file_hides_build (fs : filesystem)
    (environment contract_name : str) (e : load_error) :
  fs (artifacts_path contract_name) = Absent ->
  fs (deployment_path environment) = Broken e ->
  load_contract_abi fs environment contract_name
  = (JNull, [{| failed_contract := contract_name; failure := e |}]).
Proof.
  intros Ha Hd. unfold load_contract_abi.
  rewrite find_abi_paths, Ha, Hd. reflexivity.
Qed.

(** The Truffle build is valid and still not returned. *)
Lemma broken_deployment_file_hides_build_witness :
  fst (load_contract_abi truffle_disk (py "development")
         (py "DocumentSignerFactory")) <> JNull
  /\ load_contract_abi disk_with_broken_deployment (py "development")
       (py "DocumentSignerFactory")
     = (JNull,
        [{| failed_contract := py "DocumentSignerFactory";
            failure := DecodeFailed
                         (py "Expecting value: line 1 column 1 (char 0)") |}]).
Proof.
  split; [discriminate|].
  apply (@broken_deployment_file_hides_build disk_with_broken_deployment);
    reflexivity.
Defined.

(* ===================================================================== *)
(** * Confinement of effects                                              *)
(* ===================================================================== *)

Section Confinement.

Context {W3 : Web3}.
Variable P : event -> bool.

Lemma confined_ret {A} (a : A) : confined P (ret a).
Proof. intros s. split; reflexivity. Qed.

Lemma confined_raise {A} (e : exn) : confined P (@raise _ A e).
Proof. intros s. split; reflexivity. Qed.

Lemma confined_lift {A} (r : result A) : confined P (lift r).
Proof. intros s. split; reflexivity. Qed.

Lemma confined_emit (ev : event) : P ev = true -> confined P (emit ev).
Proof.
  intros Hev s. split; [|reflexivity].
  unfold emitted, emit. cbn. now rewrite Hev.
Qed.

Lemma confined_rpc {A} (op : web3_op) (f : World -> result A * World) :
  P (Called op) = true -> confined P (rpc op f).
Proof.
  intros Hop s. unfold emitted, final, rpc.
  destruct (f (chain s)) as [r w]. cbn. now rewrite Hop.
Qed.

Lemma confined_local {A} (op : web3_op) (r : result A) :
  P (Called op) = true -> confined P (local op r).
Proof.
  intros Hop s. unfold emitted, final, local. cbn. now rewrite Hop.
Qed.

Lemma confined_bind {A B} (m : M A) (k : A -> M B) :
  confined P m -> (forall a, confined P (k a)) -> confined P (bind m k).
Proof.
  intros Hm Hk s. specialize (Hm s). unfold emitted, final, bind in *.
  destruct (m s) as [[[e|a] s1] ev1]; cbn in *; [exact Hm|].
  specialize (Hk a s1). unfold emitted, final in Hk.
  destruct (k a s1) as [[r s2] ev2]. cbn in *.
  rewrite forallb_app. destruct Hm as [-> <-]. exact Hk.
Qed.

Lemma confined_try {A} (m : M A) (h : exn -> M A) :
  confined P m -> (forall e, confined P (h e)) -> confined P (try_except m h).
Proof.
  intros Hm Hh s. specialize (Hm s). unfold emitted, final, try_except in *.
  destruct (m s) as [[[e|a] s1] ev1]; cbn in *; [|exact Hm].
  specialize (Hh e s1). unfold emitted, final in Hh.
  destruct (h e s1) as [[r s2] ev2]. cbn in *.
  rewrite forallb_app. destruct Hm as [-> <-]. exact Hh.
Qed.

Lemma confined_scan_logs (factory : contract) (logs : list Log) :
  confined P (scan_logs factory logs).
Proof.
  induction logs as [|log logs IH]; simpl; [apply confined_raise|].
  destruct (processLog factory log); [exact IH | apply confined_ret].
Qed.

End Confinement.

(** Decomposition of a computation into its primitive steps. *)
Ltac confine :=
  unfold log_error, log_warning, index;
  repeat first
    [ apply confined_ret
    | apply confined_raise
    | apply confined_lift
    | apply confined_scan_logs
    | apply confined_emit; solve [auto]
    | apply confined_rpc; solve [auto]
    | apply confined_local; solve [auto]
    | apply confined_bind; [|intros]
    | apply confined_try; [|intros]
    | progress cbv zeta
    | match goal with
      | |- confined _ (match ?x with _ => _ end) => destruct x
      end ].

Section ConfinedOperations.

Context {W3 : Web3}.
Variable P : event -> bool.
Hypothesis P_error : forall msg, P (Logged ERROR msg) = true.
Hypothesis P_read : forall c getter, P (Called (op_call c getter)) = true.

Lemma confined_get_contract_status (contract_address : str) :
  confined P (get_contract_status contract_address).
Proof. unfold get_contract_status. confine. Qed.

Lemma confined_enrich (factory : contract) (a : str) :
  confined P (enrich factory a).
Proof.
  unfold enrich.
  apply confined_bind; [apply confined_rpc; auto | intros info].
  apply confined_bind; [apply confined_get_contract_status | intros si].
  confine.
Qed.

Hypothesis P_warning : forall msg, P (Logged WARNING msg) = true.

Lemma confined_enrich_all (factory : contract) (addresses : list str) :
  forall contracts, confined P (enrich_all factory addresses contracts).
Proof.
  induction addresses as [|a rest IH]; intros contracts; cbn [enrich_all].
  - apply confined_ret.
  - apply confined_bind; [|intros; apply IH].
    apply confined_try; [|intros; confine].
    apply confined_bind; [apply confined_enrich | intros; apply confined_ret].
Qed.

Lemma confined_get_user_contracts (config : Config) (user_address : str) :
  confined P (get_user_contracts config user_address).
Proof.
  unfold get_user_contracts.
  apply confined_try; [|intros; confine].
  destruct (factory_address config) as [fa|]; [|apply confined_ret].
  destruct (truthy fa); [|apply confined_ret].
  apply confined_bind; [apply confined_lift | intros factory].
  apply confined_bind; [apply confined_rpc; auto | intros addresses].
  apply confined_enrich_all.
Qed.

Hypothesis P_called : forall op, P (Called op) = true.

Lemma confined_submit_creation (config : Config)
    (document_hash ipfs_cid : str) (required_signers : list str)
    (private_key title description : str) (sequential_signing : bool) :
  confined P
    (submit_creation config document_hash ipfs_cid required_signers
       private_key title description sequential_signing).
Proof. unfold submit_creation. confine. Qed.


Lemma confined_sign_document (contract_address private_key metadata : str) :
  confined P (sign_document contract_address private_key metadata).
Proof. unfold sign_document. confine. Qed.

End ConfinedOperations.

(** X5: the status query and the directory query are read-only.  From every
    state and whatever the node answers, [get_contract_status] and
    [get_user_contracts] emit nothing but getter calls and log records (no
    transaction is built, signed or sent) and leave the session's
    [last_contract] untouched. *)
Theorem queries_are_read_only {W3 : Web3} (config : Config)
    (address : str) (s : state) :
  (forallb is_read (emitted (get_contract_status address) s) = true
   /\ last_contract (final (get_contract_status address) s)
      = last_contract s)
  /\ (forallb is_read (emitted (get_user_contracts config address) s) = true
      /\ last_contract (final (get_user_contracts config address) s)
         = last_contract s).
Proof.
  split.
  - now apply (@confined_get_contract_status _ is_read).
  - now apply (@confined_get_user_contracts _ is_read).
Qed.

(* ===================================================================== *)
(** * Error reporting of the operations                                   *)
(* ===================================================================== *)

Section ErrorReporting.

Context {W3 : Web3}.

Lemma try_logs_and_reraises {A} (prefix : str) (m : M A) :
  confined is_call m ->
  logs_and_reraises prefix
    (try_except m
       (fun e => bind (log_error (prefix ++ exn_str e)) (fun _ => raise e))).
Proof.
  intros Hm s. destruct (Hm s) as [Hcalls _].
  unfold outcome, emitted, try_except in *.
  destruct (m s) as [[[e|a] s1] ev1]; cbn in *.
  - exists ev1. split; [reflexivity | exact Hcalls].
  - exact Hcalls.
Qed.

End ErrorReporting.

(** X6: [create_signing_contract], [sign_document] and
    [get_contract_status] report failures the same way.  A run that raises has
    written exactly one log record, at level ERROR, as its last event, and
    the record carries the text of the very exception that is raised; a run
    that returns has logged nothing. *)
Theorem failures_are_logged_once_and_reraised {W3 : Web3} (config : Config) :
  (forall document_hash ipfs_cid required_signers private_key title
          description sequential_signing,
     logs_and_reraises (py "Error creating signing contract: ")
       (create_signing_contract config document_hash ipfs_cid
          required_signers private_key title description sequential_signing))
  /\ (forall contract_address private_key metadata,
        logs_and_reraises (py "Error signing document: ")
          (sign_document contract_address private_key metadata))
  /\ (forall contract_address,
        logs_and_reraises (py "Error getting contract status: ")
          (get_contract_status contract_address)).
Proof.
  split; [|split]; intros.
  - unfold create_signing_contract. apply try_logs_and_reraises.
    apply confined_bind;
      [apply confined_submit_creation; reflexivity
      | intros; apply confined_scan_logs].
  - unfold sign_document. apply try_logs_and_reraises. confine.
  - unfold get_contract_status. apply try_logs_and_reraises. confine.
Qed.

(* ===================================================================== *)
(** * Order and outcome of a submission                                   *)
(* ===================================================================== *)

(** Case analysis on the next primitive whose answer decides the run. *)
Ltac next_answer :=
  match goal with
  | |- context [match ?x with _ => _ end] =>
      lazymatch x with
      | context [match _ with _ => _ end] => fail
      | _ => destruct x
      end
  end.

Section SubmissionOrder.

Context {W3 : Web3}.

Lemma steps_app (a b : list event) : steps (a ++ b) = steps a ++ steps b.
Proof. unfold steps, calls. now rewrite flat_map_app, map_app. Qed.

Ltac pick_prefix :=
  first
    [ exists 0; split; [reflexivity | intros [? ?]; discriminate]
    | exists 1; split; [reflexivity | intros [? ?]; discriminate]
    | exists 2; split; [reflexivity | intros [? ?]; discriminate]
    | exists 3; split; [reflexivity | intros [? ?]; discriminate]
    | exists 4; split; [reflexivity | intros [? ?]; discriminate]
    | exists 5; split; [reflexivity | intros; reflexivity] ].

Lemma sign_document_order (contract_address private_key metadata : str)
    (s : state) :
  exists n,
    steps (emitted (sign_document contract_address private_key metadata) s)
    = firstn n submission_steps
    /\ ((exists h, outcome (sign_document contract_address private_key
                              metadata) s = inr h) -> n = 5).
Proof.
  unfold outcome, emitted, sign_document, try_except, bind, lift, rpc, local,
    log_error, emit, raise, ret.
  repeat (next_answer; cbn [fst snd app]); pick_prefix.
Qed.

Lemma submit_creation_order (config : Config) (document_hash ipfs_cid : str)
    (required_signers : list str) (private_key title description : str)
    (sequential_signing : bool) (s : state) :
  exists n,
    steps (emitted (submit_creation config document_hash ipfs_cid
                      required_signers private_key title description
                      sequential_signing) s)
    = firstn n submission_steps
    /\ ((exists r, outcome (submit_creation config document_hash ipfs_cid
                              required_signers private_key title description
                              sequential_signing) s = inr r) -> n = 5).
Proof.
  unfold outcome, emitted, submit_creation, bind, lift, rpc, local, raise, ret.
  repeat (next_answer; cbn [fst snd app]); pick_prefix.
Qed.

Lemma create_signing_contract_order (config : Config)
    (document_hash ipfs_cid : str) (required_signers : list str)
    (private_key title description : str) (sequential_signing : bool)
    (s : state) :
  exists n,
    steps (emitted (create_signing_contract config document_hash ipfs_cid
                      required_signers private_key title description
                      sequential_signing) s)
    = firstn n submission_steps
    /\ ((exists a, outcome (create_signing_contract config document_hash
                              ipfs_cid required_signers private_key title
                              description sequential_signing) s = inr a)
        -> n = 5).
Proof.
  destruct (submit_creation_order config document_hash ipfs_cid
              required_signers private_key title description
              sequential_signing s) as (n & Hn & Hfull).
  exists n.
  unfold outcome, emitted, create_signing_contract, try_except, bind in *.
  destruct (submit_creation config document_hash ipfs_cid required_signers
              private_key title description sequential_signing s)
    as [[[e|[factory logs]] s1] ev1]; cbn [fst snd] in *.
  - unfold log_error, emit, raise. cbn [fst snd app].
    rewrite steps_app, Hn. cbn. rewrite app_nil_r.
    split; [reflexivity | intros [a Ha]; discriminate].
  - destruct (scan_logs_silent factory logs s1) as [[e|a] Hr]; rewrite Hr.
    + unfold log_error, emit, raise. cbn [fst snd app].
      rewrite !steps_app, Hn. cbn. rewrite !app_nil_r.
      split; [reflexivity | intros [a Ha]; discriminate].
    + cbn [fst snd]. rewrite steps_app, Hn. cbn. rewrite app_nil_r.
      split; [reflexivity | intros _; apply Hfull; eexists; reflexivity].
Qed.

End SubmissionOrder.

(** X7: a submission talks to the node in one fixed order, nonce lookup,
    build, sign, send, wait, and stops at the first step that fails: the node
    calls of any run of [create_signing_contract] or [sign_document] are an
    initial segment of that sequence.  Nothing is sent that was not signed,
    nothing is signed that was not built, no receipt is awaited for a
    transaction that was not sent, and a run that returns has performed all
    five steps. *)
Theorem submissions_follow_one_order {W3 : Web3} (config : Config) :
  (forall document_hash ipfs_cid required_signers private_key title
          description sequential_signing s,
     exists n,
       steps (emitted (create_signing_contract config document_hash ipfs_cid
                         required_signers private_key title description
                         sequential_signing) s)
       = firstn n submission_steps
       /\ ((exists a, outcome (create_signing_contract config document_hash
                                 ipfs_cid required_signers private_key title
                                 description sequential_signing) s = inr a)
           -> n = 5))
  /\ (forall contract_address private_key metadata s,
        exists n,
          steps (emitted (sign_document contract_address private_key
                            metadata) s)
          = firstn n submission_steps
          /\ ((exists h, outcome (sign_document contract_address private_key
                                    metadata) s = inr h) -> n = 5)).
Proof.
  split; intros.
  - apply create_signing_contract_order.
  - apply sign_document_order.
Qed.

(** A signature on the scripted chain performs the five steps. *)
Lemma submissions_follow_one_order_witness :
  steps (emitted (@sign_document (Demo.node Demo.quiet) (py "0xC1")
                    (py "key") (py "agreed")) (Demo.start Demo.quiet))
  = submission_steps.
Proof.
  destruct (proj2 (@submissions_follow_one_order (Demo.node Demo.quiet)
                     (Demo.config None))
              (py "0xC1") (py "key") (py "agreed") (Demo.start Demo.quiet))
    as (n & Hn & Hfull).
  rewrite Hn, Hfull; [reflexivity|].
  eexists. reflexivity.
Defined.

(** X8: once [sign_document] has had its transaction accepted by the node,
    the wait for the receipt alone decides the outcome.  If the wait returns,
    whatever the receipt holds, the hex form of the hash the node answered is
    returned; if the wait raises, that error is logged and raised, and the
    hash is not returned although the transaction has been sent.  Either way
    the five steps ran once each. *)
Theorem sign_document_outcome_after_broadcast {W3 : Web3}
    (contract_address private_key metadata account : str) (c : contract)
    (s : state) (tx_hash : TxHash) (w3 w4 : World)
    (r : result (list Log)) :
  Account_from_key private_key = inr account ->
  eth_contract contract_address SIGNER_ABI = inr c ->
  functions c (signDocument metadata) = inr tt ->
  broadcast_sent c (signDocument metadata) private_key account 200000
    (chain s) tx_hash w3 ->
  wait_for_transaction_receipt tx_hash w3 = (r, w4) ->
  exists evs,
    steps evs = submission_steps
    /\ broadcasts evs = 1
    /\ sign_document contract_address private_key metadata s
       = match r with
         | inr _ => (inr (tx_hash_hex tx_hash), set_chain s w4, evs)
         | inl e =>
             (inl e, set_chain s w4,
              evs ++ [Logged ERROR (py "Error signing document: "
                                    ++ exn_str e)])
         end.
Proof.
  intros Hkey Hc Hfn (nonce & w1 & txn & w2 & signed & Hn & Hb & Hs & Hsend)
    Hwait.
  unfold sign_document, try_except, bind, lift, rpc, local.
  rewrite Hkey, Hc, Hfn, Hn. cbn [chain set_chain]. rewrite Hb.
  cbn [chain set_chain]. rewrite Hs, Hsend. cbn [chain set_chain].
  rewrite Hwait. cbn [chain set_chain last_contract].
  destruct r as [e|logs];
    (eexists; split; [|split; [|reflexivity]]; reflexivity).
Qed.

(** The wait returns on the scripted chain. *)
Lemma sign_document_outcome_after_broadcast_witness :
  let node := Demo.node Demo.quiet in
  exists evs,
    steps evs = submission_steps
    /\ broadcasts evs = 1
    /\ @sign_document node (py "0xC1") (py "key") (py "agreed")
         (Demo.start Demo.quiet)
       = (inr (py "0x01"),
          {| chain := (4 : @World node); last_contract := None |}, evs).
Proof.
  intros node.
  refine (@sign_document_outcome_after_broadcast node (py "0xC1") (py "key")
            (py "agreed") (py "0xkey") (Contract (py "0xC1") SIGNER_ABI)
            (Demo.start Demo.quiet) 1%Z (3 : @World node) (4 : @World node)
            (inr [None; Some (py "0xC0DE")]) eq_refl eq_refl eq_refl _
            eq_refl).
  exists 0%Z, (1 : @World node),
    (signDocument (py "agreed"),
     {| tx_from := py "0xkey"; tx_nonce := 0; tx_gas := 200000;
        tx_gasPrice := to_wei_gwei 20 |}),
    (2 : @World node),
    (signDocument (py "agreed"),
     {| tx_from := py "0xkey"; tx_nonce := 0; tx_gas := 200000;
        tx_gasPrice := to_wei_gwei 20 |}).
  repeat split.
Defined.

(* ===================================================================== *)
(** * Accounting of the directory query                                   *)
(* ===================================================================== *)

Section DirectoryAccounting.

Context {W3 : Web3}.
Variable factory : contract.

Lemma warnings_app (a b : list event) :
  warnings (a ++ b) = warnings a + warnings b.
Proof. unfold warnings. now rewrite filter_app, length_app. Qed.

Lemma calls_app (a b : list event) : calls (a ++ b) = calls a ++ calls b.
Proof. unfold calls. apply flat_map_app. Qed.

Lemma no_warnings (evs : list event) :
  forallb not_warning evs = true -> warnings evs = 0.
Proof.
  unfold warnings, not_warning. induction evs as [|ev evs IH]; cbn;
    [reflexivity|].
  destruct (is_warning ev); cbn; [discriminate | exact IH].
Qed.

Lemma enrich_warns_nothing (a : str) (s : state) :
  warnings (emitted (enrich factory a) s) = 0.
Proof.
  apply no_warnings.
  now apply (@confined_enrich _ not_warning).
Qed.

(** One status query costs at most seven node calls, one enrichment at most
    eight. *)
Lemma get_contract_status_calls (a : str) (s : state) :
  length (calls (emitted (get_contract_status a) s)) <= 7.
Proof.
  unfold emitted, get_contract_status, try_except, bind, lift, rpc,
    log_error, emit, raise, ret.
  repeat (next_answer; cbn [fst snd app]); cbn; lia.
Qed.

Lemma enrich_calls (a : str) (s : state) :
  length (calls (emitted (enrich factory a) s)) <= 8.
Proof.
  pose proof (get_contract_status_calls a) as Hstatus.
  unfold emitted, enrich, bind, rpc in *.
  destruct (getContractInfo factory a (chain s)) as [[e|info] w];
    cbn [fst snd]; [cbn; lia|].
  specialize (Hstatus (set_chain s w)).
  destruct (get_contract_status a (set_chain s w)) as [[[e|si] s1] ev1];
    cbn [fst snd] in *;
    [rewrite calls_app, length_app; cbn [calls flat_map app length]; lia|].
  unfold index, raise, ret.
  repeat (next_answer; cbn [fst snd]);
    rewrite ?app_nil_r, ?calls_app, ?length_app;
    cbn [calls flat_map app length]; lia.
Qed.

Lemma listing_accounting (addresses : list str) (s s' : state)
    (entries : list contract_entry) (evs : list event) :
  listing factory s addresses entries s' evs ->
  length entries + warnings evs = length addresses
  /\ length (calls evs) <= 8 * length addresses.
Proof.
  induction 1 as [s | s a rest entry sa eva entries sb evb Hen _ IH
                    | s a rest e sa eva entries sb evb Hen _ IH].
  - split; [reflexivity | cbn; lia].
  - pose proof (enrich_warns_nothing a s) as Hw.
    pose proof (enrich_calls a s) as Hc.
    unfold emitted in Hw, Hc. rewrite Hen in Hw, Hc. cbn [snd] in Hw, Hc.
    rewrite warnings_app, calls_app, length_app, Hw. cbn [length]. lia.
  - pose proof (enrich_warns_nothing a s) as Hw.
    pose proof (enrich_calls a s) as Hc.
    unfold emitted in Hw, Hc. rewrite Hen in Hw, Hc. cbn [snd] in Hw, Hc.
    rewrite warnings_app, calls_app, length_app, Hw.
    change (Logged WARNING (py "Error getting info for contract " ++ a
                            ++ py ": " ++ exn_str e) :: evb)
      with ([Logged WARNING (py "Error getting info for contract " ++ a
                             ++ py ": " ++ exn_str e)] ++ evb).
    rewrite warnings_app, calls_app. cbn [length]. cbn. lia.
Qed.

End DirectoryAccounting.

(** X9: when the factory enumerates [addresses], every one of them is
    accounted for: the number of entries [get_user_contracts] returns plus the
    number of warnings it logs equals the number of addresses enumerated.  The
    query costs at most one node call for the enumeration and eight per
    address. *)
Theorem directory_accounts_for_every_address {W3 : Web3} (config : Config)
    (user_address configured_address : str) (factory : contract)
    (addresses : list str) (s : state) (w1 : World) :
  factory_address config = Some configured_address ->
  truthy configured_address = true ->
  eth_contract configured_address FACTORY_ABI = inr factory ->
  getContractsByInitiator factory user_address (chain s)
  = (inr addresses, w1) ->
  exists entries,
    outcome (get_user_contracts config user_address) s = inr entries
    /\ length entries
       + warnings (emitted (get_user_contracts config user_address) s)
       = length addresses
    /\ length (calls (emitted (get_user_contracts config user_address) s))
       <= 1 + 8 * length addresses.
Proof.
  intros Hfa Htruthy Hfactory Henum.
  destruct (enrich_all_listing factory addresses [] (set_chain s w1))
    as (entries & s' & evs & Hl & Hrun).
  destruct (listing_accounting Hl) as [Hcount Hcalls].
  exists entries.
  unfold outcome, emitted, get_user_contracts, try_except, bind, lift, rpc.
  rewrite Hfa, Htruthy, Hfactory, Henum, Hrun. cbn [fst snd app].
  split; [reflexivity | split].
  - change (warnings (Called (op_call factory (py "getContractsByInitiator"))
                      :: evs)) with (warnings evs). exact Hcount.
  - cbn [calls flat_map app length]. fold (calls evs). lia.
Qed.

(** Three addresses, two entries, one warning. *)
Lemma directory_accounts_for_every_address_witness :
  let run :=
    @get_user_contracts (Demo.node Demo.quiet)
      (Demo.config (Some (py "0xF"))) (py "0xA") in
  exists entries,
    outcome run (Demo.start Demo.quiet) = inr entries
    /\ length entries + warnings (emitted run (Demo.start Demo.quiet)) = 3
    /\ length (calls (emitted run (Demo.start Demo.quiet))) <= 25.
Proof.
  intros run.
  exact (@directory_accounts_for_every_address (Demo.node Demo.quiet)
           (Demo.config (Some (py "0xF"))) (py "0xA") (py "0xF")
           (Contract (py "0xF") FACTORY_ABI)
           [py "0xC1"; py "0xC2"; py "0xC3"] (Demo.start Demo.quiet)
           (1 : @World (Demo.node Demo.quiet))
           eq_refl eq_refl eq_refl eq_refl).
Defined.

(* ===================================================================== *)
(** * The handlers                                                        *)
(* ===================================================================== *)

Section CreateHandler.

Context {W3 : Web3}.

(** What each operation asks the node to build. *)
Lemma sign_document_builds (contract_address private_key metadata : str)
    (s : state) (c : contract) (f : contract_function) (p : tx_params) :
  In (Called (op_build_transaction c f p))
    (emitted (sign_document contract_address private_key metadata) s) ->
  f = signDocument metadata
  /\ eth_contract contract_address SIGNER_ABI = inr c
  /\ Account_from_key private_key = inr (tx_from p)
  /\ tx_gas p = 200000%Z
  /\ tx_gasPrice p = 20000000000%Z.
Proof.
  unfold emitted, sign_document, try_except, bind, lift, rpc, local,
    log_error, emit, raise, ret.
  intros H.
  repeat (match goal with
          | H : context [match ?x with _ => _ end] |- _ =>
              lazymatch x with
              | context [match _ with _ => _ end] => fail
              | _ => destruct x eqn:?
              end
          end; cbn [snd fst app In] in H);
    repeat match goal with
           | H : _ \/ _ |- _ => destruct H
           | H : False |- _ => contradiction
           | H : Called _ = Called _ |- _ => inversion H; clear H; subst
           | H : Logged _ _ = Called _ |- _ => discriminate H
           end;
    repeat split; reflexivity.
Qed.

Lemma submit_creation_fees (config : Config) (document_hash ipfs_cid : str)
    (required_signers : list str) (private_key title description : str)
    (sequential_signing : bool) (s : state) (c : contract)
    (f : contract_function) (p : tx_params) :
  In (Called (op_build_transaction c f p))
    (emitted (submit_creation config document_hash ipfs_cid required_signers
                private_key title description sequential_signing) s) ->
  Account_from_key private_key = inr (tx_from p)
  /\ tx_gas p = 3000000%Z
  /\ tx_gasPrice p = 20000000000%Z.
Proof.
  unfold emitted, submit_creation, bind, lift, rpc, local, ret, raise.
  intros H.
  repeat (match goal with
          | H : context [match ?x with _ => _ end] |- _ =>
              lazymatch x with
              | context [match _ with _ => _ end] => fail
              | _ => destruct x eqn:?
              end
          end; cbn [snd fst app In] in H);
    repeat match goal with
           | H : _ \/ _ |- _ => destruct H
           | H : False |- _ => contradiction
           | H : Called _ = Called _ |- _ => inversion H; clear H; subst
           end;
    repeat split; reflexivity.
Qed.

Lemma create_signing_contract_fees (config : Config)
    (document_hash ipfs_cid : str) (required_signers : list str)
    (private_key title description : str) (sequential_signing : bool)
    (s : state) (c : contract) (f : contract_function) (p : tx_params) :
  In (Called (op_build_transaction c f p))
    (emitted (create_signing_contract config document_hash ipfs_cid
                required_signers private_key title description
                sequential_signing) s) ->
  Account_from_key private_key = inr (tx_from p)
  /\ tx_gas p = 3000000%Z
  /\ tx_gasPrice p = 20000000000%Z.
Proof.
  pose proof (@submit_creation_fees config document_hash ipfs_cid
                required_signers private_key title description
                sequential_signing s c f p) as Hsub.
  unfold emitted, create_signing_contract, try_except, bind in *.
  destruct (submit_creation config document_hash ipfs_cid required_signers
              private_key title description sequential_signing s)
    as [[[e|[factory logs]] s1] ev1].
  - unfold log_error, emit, raise. cbn [fst snd app].
    rewrite !in_app_iff. cbn [In].
    intros [H | [H | []]]; [now apply Hsub | discriminate].
  - cbn [fst snd]. destruct (scan_logs_silent factory logs s1) as [[e|a] Hr];
      rewrite Hr; unfold log_error, emit, raise; cbn [fst snd app];
      rewrite ?in_app_iff; cbn [In]; intros H;
      repeat match goal with
             | H : _ \/ _ |- _ => destruct H
             | H : False |- _ => contradiction
             end; try discriminate; now apply Hsub.
Qed.

End CreateHandler.


(** X11: every transaction built on behalf of the create handler is the
    [createSigningContract] call for the hash and the pointer of the uploaded
    bytes, the signer list derived from the form and from the address of the
    initiator's key, and the title, description and flag of the form. *)
Theorem create_handler_builds_from_form {W3 : Web3} (config : Config)
    (uploaded_file : option UploadedFile) (initiator_key : str)
    (signers : list str) (title description : str)
    (sequential_signing : bool) (s : state) (c : contract)
    (f : contract_function) (p : tx_params) :
  In (Called (op_build_transaction c f p))
    (emitted (on_create_contract config uploaded_file initiator_key signers
                title description sequential_signing) s) ->
  exists file initiator_address,
    uploaded_file = Some file
    /\ Account_from_key initiator_key = inr initiator_address
    /\ f = createSigningContract (hash_document (content file))
             (upload_to_ipfs (content file) (name file))
             (required_signers_of initiator_address signers)
             sequential_signing title description.
Proof. apply on_create_contract_submits. Qed.

(** The form [[A, B, A, C]] filled by [A] on the scripted chain. *)
Lemma create_handler_builds_from_form_witness :
  let file := {| name := py "lease.txt";
                 content := list_byte_of_string "abc" |} in
  exists file' initiator_address,
    Some file = Some file'
    /\ @Account_from_key (Demo.node Demo.quiet) (py "A")
       = inr initiator_address
    /\ createSigningContract (hash_document (content file))
         (upload_to_ipfs (content file) (name file))
         [py "0xA"; py "0xB"; py "0xC"] false (py "Lease")
         (py "Document for signing")
       = createSigningContract (hash_document (content file'))
           (upload_to_ipfs (content file') (name file'))
           (required_signers_of initiator_address
              [py "0xA"; py "0xB"; py "0xA"; py "0xC"])
           false (py "Lease") (py "Document for signing").
Proof.
  intros file.
  apply (@create_handler_builds_from_form (Demo.node Demo.quiet)
           (Demo.config (Some (py "0xF"))) (Some file) (py "A")
           [py "0xA"; py "0xB"; py "0xA"; py "0xC"] (py "Lease")
           (py "Document for signing") false (Demo.start Demo.quiet)
           (Contract (py "0xF") FACTORY_ABI)
           (createSigningContract (hash_document (content file))
              (upload_to_ipfs (content file) (name file))
              [py "0xA"; py "0xB"; py "0xC"] false (py "Lease")
              (py "Document for signing"))
           {| tx_from := py "0xA"; tx_nonce := 0; tx_gas := 3000000;
              tx_gasPrice := 20000000000 |}).
  vm_compute. right. left. reflexivity.
Defined.

(** X12: gas limit and gas price are fixed by the operation, not by the
    node or the caller.  Every transaction [create_signing_contract] has built
    carries a gas limit of 3000000, every transaction [sign_document] has
    built is [signDocument(metadata)] on the given contract with a gas limit
    of 200000; both carry a gas price of 20 gwei and are sent from the address
    of the private key. *)
Theorem transactions_carry_fixed_fees {W3 : Web3} (config : Config)
    (c : contract) (f : contract_function) (p : tx_params) (s : state) :
  (forall document_hash ipfs_cid required_signers private_key title
          description sequential_signing,
     In (Called (op_build_transaction c f p))
       (emitted (create_signing_contract config document_hash ipfs_cid
                   required_signers private_key title description
                   sequential_signing) s) ->
     Account_from_key private_key = inr (tx_from p)
     /\ tx_gas p = 3000000%Z
     /\ tx_gasPrice p = 20000000000%Z)
  /\ (forall contract_address private_key metadata,
        In (Called (op_build_transaction c f p))
          (emitted (sign_document contract_address private_key metadata) s)
        ->
        f = signDocument metadata
        /\ eth_contract contract_address SIGNER_ABI = inr c
        /\ Account_from_key private_key = inr (tx_from p)
        /\ tx_gas p = 200000%Z
        /\ tx_gasPrice p = 20000000000%Z).
Proof.
  split; intros.
  - now apply (@create_signing_contract_fees _ config document_hash ipfs_cid
                 required_signers private_key title description
                 sequential_signing s c f p).
  - now apply (@sign_document_builds _ contract_address private_key metadata
                 s c f p).
Qed.

(** A signature on the scripted chain. *)
Lemma transactions_carry_fixed_fees_witness :
  let p := {| tx_from := py "0xkey"; tx_nonce := 0; tx_gas := 200000;
              tx_gasPrice := 20000000000 |} in
  @Account_from_key (Demo.node Demo.quiet) (py "key") = inr (tx_from p)
  /\ tx_gas p = 200000%Z.
Proof.
  intros p.
  destruct (proj2 (@transactions_carry_fixed_fees (Demo.node Demo.quiet)
                     (Demo.config None) (Contract (py "0xC1") SIGNER_ABI)
                     (signDocument (py "agreed")) p (Demo.start Demo.quiet))
              (py "0xC1") (py "key") (py "agreed"))
    as (_ & _ & Hfrom & Hgas & _).
  - vm_compute. right. left. reflexivity.
  - split; assumption.
Defined.

(* ===================================================================== *)
(** * The status panel and the contract list                              *)
(* ===================================================================== *)

(** X13: the status panel of the signing tab never gets past the status
    metric.  The dictionary [get_contract_status] returns has no [progress]
    key, so when the query succeeds the panel shows its heading and the
    status, then ends with the warning for the missing key; when the query
    raises, the panel ends with the warning for that error.  The progress
    metric and the list of required signers are never shown, whatever the
    contract. *)
Theorem status_panel_stops_at_progress {W3 : Web3}
    (write_signers : status_info -> Page unit) (contract_address : str)
    (s : state) :
  truthy contract_address = true ->
  (forall status_info,
     status_info_getitem status_info (py "progress")
     = inl (KeyError (py "progress")))
  /\ status_panel write_signers contract_address s
     = match get_contract_status contract_address s with
       | (inr status_info, s1, evs) =>
           (inr tt, s1,
            map Core evs
            ++ [Subheader (bar_chart ++ py "Contract Status");
                Metric (py "Status") (F_str (si_status status_info));
                Warning (py "Could not load contract status: 'progress'")])
       | (inl e, s1, evs) =>
           (inr tt, s1,
            map Core evs
            ++ [Warning (py "Could not load contract status: "
                         ++ exn_str e)])
       end.
Proof.
  intros Haddress. split; [reflexivity|].
  unfold status_panel, page_try, page_bind, core. rewrite Haddress.
  destruct (get_contract_status contract_address s)
    as [[[e|status_info] s1] evs]; [reflexivity|].
  cbn. now rewrite <- app_assoc.
Qed.

(** The panel for a contract of the scripted chain. *)
Lemma status_panel_stops_at_progress_witness :
  let node := Demo.node Demo.quiet in
  @status_panel node (fun _ => page_ret tt) (py "0xC1")
    (Demo.start Demo.quiet)
  = (inr tt, {| chain := (7 : @World node); last_contract := None |},
     map Core (read_events (Contract (py "0xC1") SIGNER_ABI))
     ++ [Subheader (bar_chart ++ py "Contract Status");
         Metric (py "Status") (F_str (py "INITIATED"));
         Warning (py "Could not load contract status: 'progress'")]).
Proof.
  intros node.
  exact (proj2 (@status_panel_stops_at_progress node
                  (fun _ => page_ret tt) (py "0xC1")
                  (Demo.start Demo.quiet) eq_refl)).
Defined.

Section ContractList.

Context {W3 : Web3}.
Variable config : Config.
Variable render_contract : contract_entry -> M unit.

Lemma render_all_stops (shown : list contract_entry)
    (broken : contract_entry) (hidden : list contract_entry)
    (s s1 s2 : state) (ev1 ev2 : list event) (e : exn) :
  render_all render_contract shown s = (inr tt, s1, ev1) ->
  render_contract broken s1 = (inl e, s2, ev2) ->
  render_all render_contract (shown ++ broken :: hidden) s
  = (inl e, s2, ev1 ++ ev2).
Proof.
  revert s ev1. induction shown as [|c shown IH]; intros s ev1 Hshown Hbroken.
  - cbn in Hshown. inversion Hshown. subst.
    cbn. unfold bind. now rewrite Hbroken.
  - cbn [app render_all] in *. unfold bind in *.
    destruct (render_contract c s) as [[[x|[]] sc] evc]; [discriminate|].
    destruct (render_all render_contract shown sc) as [[[x|[]] sd] evd] eqn:Hr;
      [discriminate|].
    inversion Hshown. subst.
    rewrite (IH sc evd Hr Hbroken). now rewrite app_assoc.
Qed.

End ContractList.

(** X14: the [Load My Contracts] handler never raises, and it announces as
    many contracts as [get_user_contracts] returned.  Unlike a failed
    enrichment, a failed rendering is not skipped: if rendering one of the
    returned entries raises, the entries after it are not rendered and the
    handler ends with an error message. *)
Theorem contract_list_stops_at_first_rendering_failure {W3 : Web3}
    (config : Config) (render_contract : contract_entry -> M unit)
    (user_address_input : str) (s : state) :
  (exists s' evs,
     on_load_contracts config render_contract user_address_input s
     = (inr tt, s', evs))
  /\ (forall shown broken hidden e s1 s2 s3 ev1 ev2 ev3,
        truthy user_address_input = true ->
        get_user_contracts config user_address_input s
        = (inr (shown ++ broken :: hidden), s1, ev1) ->
        render_all render_contract shown s1 = (inr tt, s2, ev2) ->
        render_contract broken s2 = (inl e, s3, ev3) ->
        on_load_contracts config render_contract user_address_input s
        = (inr tt, s3,
           ev1
           ++ Shown st_success
                (py "Found "
                 ++ str_of_int (Z.of_nat (length (shown ++ broken :: hidden)))
                 ++ py " contracts")
              :: (ev2 ++ ev3)
           ++ [Shown st_error (cross_mark ++ py "Error loading contracts: "
                               ++ exn_str e)])).
Proof.
  split.
  - unfold on_load_contracts.
    destruct (truthy user_address_input); [|eexists _, _; reflexivity].
    unfold try_except, bind at 1.
    destruct (get_user_contracts config user_address_input s)
      as [[[e|contracts] s1] ev1]; [eexists _, _; reflexivity|].
    destruct contracts as [|c rest]; [eexists _, _; reflexivity|].
    unfold bind, show, emit.
    destruct (render_all render_contract (c :: rest) s1) as [[[e|[]] s2] ev2];
      eexists _, _; reflexivity.
  - intros shown broken hidden e s1 s2 s3 ev1 ev2 ev3 Hu Hlist Hshown Hbroken.
    assert (Hstop : render_all render_contract (shown ++ broken :: hidden) s1
                    = (inl e, s3, ev2 ++ ev3))
      by (eapply render_all_stops; eassumption).
    unfold on_load_contracts, try_except, bind at 1. rewrite Hu, Hlist.
    destruct (shown ++ broken :: hidden) as [|c rest] eqn:Hne;
      [now destruct shown|].
    unfold bind, show, emit. rewrite Hstop. cbn [app].
    rewrite <- (app_assoc ev1). reflexivity.
Qed.

(** Two entries returned on the scripted chain, the first cannot be
    rendered. *)
Lemma contract_list_stops_at_first_rendering_failure_witness :
  let node := Demo.node Demo.quiet in
  let listed :=
    @get_user_contracts node (Demo.config (Some (py "0xF"))) (py "0xA")
      (Demo.start Demo.quiet) in
  @on_load_contracts node (Demo.config (Some (py "0xF"))) failing_render
    (py "0xA") (Demo.start Demo.quiet)
  = (inr tt, snd (fst listed),
     snd listed
     ++ Shown st_success (py "Found 2 contracts")
        :: [Shown st_error (cross_mark ++ py "Error loading contracts: "
                            ++ py "year out of range")]).
Proof.
  intros node listed.
  assert (Hlisted : exists first second s1 ev1,
             listed = (inr ([] ++ first :: [second]), s1, ev1)).
  { vm_compute. eexists _, _, _, _. reflexivity. }
  destruct Hlisted as (first & second & s1 & ev1 & Hlisted).
  rewrite Hlisted. cbn [fst snd].
  exact (proj2 (@contract_list_stops_at_first_rendering_failure node
                  (Demo.config (Some (py "0xF"))) failing_render (py "0xA")
                  (Demo.start Demo.quiet))
           [] first [second] (ValueError (py "year out of range"))
           s1 s1 s1 ev1 [] [] eq_refl Hlisted eq_refl eq_refl).
Defined.

(* ===================================================================== *)
(** * Entries of the directory and blank signer fields                    *)
(* ===================================================================== *)

Section Entries.

Context {W3 : Web3}.

Lemma getitem_in_range {A} (l : list A) (i : nat) (d : A) :
  i < length l -> getitem l (Z.of_nat i) = Some (nth i l d).
Proof.
  intros Hi. unfold getitem.
  destruct (Z.leb_spec 0 (Z.of_nat i)); [|lia].
  rewrite Nat2Z.id. now apply nth_error_nth'.
Qed.

Lemma getitem_past_end {A} (l : list A) (i : nat) :
  length l <= i -> getitem l (Z.of_nat i) = None.
Proof.
  intros Hi. unfold getitem.
  destruct (Z.leb_spec 0 (Z.of_nat i)); [|lia].
  rewrite Nat2Z.id. now apply nth_error_None.
Qed.

Lemma blank_fields_filtered (signers : list str) :
  forallb blank signers = true ->
  filter (fun s => truthy (strip s)) signers = [].
Proof.
  induction signers as [|x signers IH]; cbn; [reflexivity|].
  intros H. apply andb_true_iff in H. destruct H as [Hx Hrest].
  rewrite truthy_strip, Hx. cbn. now apply IH.
Qed.

End Entries.

(** X15: an entry of the directory is built from an information tuple of at
    least seven fields.  When the two reads for an address succeed,
    enrichment succeeds exactly if the tuple has seven fields or more; the
    entry then takes its title, hash, pointer, creation time and activity
    flag from positions 6, 1, 2, 4 and 5, its status from the snapshot, and
    its progress is the text [signed/total].  With a shorter tuple the first
    access, position 6, raises [IndexError], after the status query has been
    made. *)
Theorem enrichment_needs_seven_fields {W3 : Web3} (factory : contract)
    (a : str) (s s1 : state) (w : World) (info : list pyval)
    (snapshot : status_info) (evs : list event) :
  getContractInfo factory a (chain s) = (inr info, w) ->
  get_contract_status a (set_chain s w) = (inr snapshot, s1, evs) ->
  enrich factory a s
  = if 7 <=? length info then
      (inr {| ce_address := a;
              ce_title := nth 6 info (PInt 0);
              ce_document_hash := nth 1 info (PInt 0);
              ce_ipfs_cid := nth 2 info (PInt 0);
              ce_created_at := nth 4 info (PInt 0);
              ce_is_active := nth 5 info (PInt 0);
              ce_status := si_status snapshot;
              ce_progress := str_of_int (signed_count snapshot) ++ py "/"
                             ++ str_of_int (total_signers snapshot) |},
       s1, Called (op_call factory (py "getContractInfo")) :: evs)
    else
      (inl (IndexError (py "tuple index out of range")), s1,
       Called (op_call factory (py "getContractInfo")) :: evs).
Proof.
  intros Hinfo Hstatus.
  unfold enrich, bind, rpc. rewrite Hinfo, Hstatus. unfold index.
  destruct (Nat.leb_spec 7 (length info)) as [Hlen|Hlen].
  - change 6%Z with (Z.of_nat 6). change 1%Z with (Z.of_nat 1).
    change 2%Z with (Z.of_nat 2). change 4%Z with (Z.of_nat 4).
    change 5%Z with (Z.of_nat 5).
    rewrite !(getitem_in_range info (PInt 0)) by lia.
    cbn. now rewrite app_nil_r.
  - change 6%Z with (Z.of_nat 6).
    rewrite getitem_past_end by lia.
    cbn. now rewrite app_nil_r.
Qed.

(** A contract of the scripted chain: seven fields, entry built. *)
Lemma enrichment_needs_seven_fields_witness :
  let node := Demo.node Demo.quiet in
  let factory := Contract (py "0xF") FACTORY_ABI in
  outcome (@enrich node factory (py "0xC1")) (Demo.start Demo.quiet)
  = inr {| ce_address := py "0xC1";
           ce_title := PStr (py "Lease");
           ce_document_hash := PStr (py "0xabc");
           ce_ipfs_cid := PStr (py "Qmabc");
           ce_created_at := PInt 1700000000;
           ce_is_active := PBool true;
           ce_status := py "INITIATED";
           ce_progress := py "0/2" |}.
Proof.
  intros node factory. unfold outcome.
  rewrite (@enrichment_needs_seven_fields node factory (py "0xC1")
             (Demo.start Demo.quiet)
             {| chain := (8 : @World node); last_contract := None |}
             (1 : @World node) (Demo.info (py "0xC1"))
             {| signatures := []; is_fully_signed := false;
                si_required_signers := [py "0xA"; py "0xB"];
                signed_count := 0; total_signers := 2;
                si_status := py "INITIATED";
                si_document_hash := PStr (py "0xabc");
                si_ipfs_cid := PStr (py "Qmabc") |}
             (read_events (Contract (py "0xC1") SIGNER_ABI))
             eq_refl eq_refl).
  reflexivity.
Defined.

(** X16: the directory invents nothing and keeps the order of the
    enumeration.  When the factory enumerates [addresses], the addresses of
    the entries [get_user_contracts] returns are obtained from [addresses] by
    deleting some of its positions; an address enumerated twice is listed
    twice. *)
Theorem directory_entries_follow_enumeration {W3 : Web3} (config : Config)
    (user_address configured_address : str) (factory : contract)
    (addresses : list str) (s : state) (w1 : World) :
  factory_address config = Some configured_address ->
  truthy configured_address = true ->
  eth_contract configured_address FACTORY_ABI = inr factory ->
  getContractsByInitiator factory user_address (chain s)
  = (inr addresses, w1) ->
  exists entries (kept : list bool),
    outcome (get_user_contracts config user_address) s = inr entries
    /\ length kept = length addresses
    /\ map ce_address entries
       = map snd (filter fst (combine kept addresses)).
Proof.
  intros Hfa Htruthy Hfactory Henum.
  destruct (enrich_all_listing factory addresses [] (set_chain s w1))
    as (entries & s' & evs & Hl & Hrun).
  destruct (listing_addresses Hl) as (kept & Hlen & Hmap).
  exists entries, kept. split; [|split; assumption].
  unfold outcome, get_user_contracts, try_except, bind, lift, rpc.
  now rewrite Hfa, Htruthy, Hfactory, Henum, Hrun.
Qed.

(** Three addresses enumerated, the second dropped. *)
Lemma directory_entries_follow_enumeration_witness :
  exists entries (kept : list bool),
    outcome (@get_user_contracts (Demo.node Demo.quiet)
               (Demo.config (Some (py "0xF"))) (py "0xA"))
      (Demo.start Demo.quiet) = inr entries
    /\ length kept = 3
    /\ map ce_address entries
       = map snd (filter fst
                    (combine kept [py "0xC1"; py "0xC2"; py "0xC3"])).
Proof.
  exact (@directory_entries_follow_enumeration (Demo.node Demo.quiet)
           (Demo.config (Some (py "0xF"))) (py "0xA") (py "0xF")
           (Contract (py "0xF") FACTORY_ABI)
           [py "0xC1"; py "0xC2"; py "0xC3"] (Demo.start Demo.quiet)
           (1 : @World (Demo.node Demo.quiet))
           eq_refl eq_refl eq_refl eq_refl).
Defined.

(** X17: signer fields that hold only white space pass the handler's check
    for at least one signer as soon as one of them is not empty, and are then
    all dropped: every transaction built for such a form names the initiator
    as the only required signer. *)
Theorem blank_signer_fields_leave_initiator_alone {W3 : Web3}
    (config : Config) (uploaded_file : option UploadedFile)
    (initiator_key : str) (signers : list str) (title description : str)
    (sequential_signing : bool) (s : state) (c : contract)
    (f : contract_function) (p : tx_params) :
  forallb blank signers = true ->
  In (Called (op_build_transaction c f p))
    (emitted (on_create_contract config uploaded_file initiator_key signers
                title description sequential_signing) s) ->
  existsb truthy signers = true
  /\ exists file initiator_address,
       uploaded_file = Some file
       /\ Account_from_key initiator_key = inr initiator_address
       /\ f = createSigningContract (hash_document (content file))
                (upload_to_ipfs (content file) (name file))
                [initiator_address] sequential_signing title description.
Proof.
  intros Hblank Hbuilt. split.
  - unfold emitted, on_create_contract in Hbuilt.
    destruct uploaded_file as [file|];
      [|destruct Hbuilt as [H|[]]; discriminate].
    destruct (truthy initiator_key); cbn [negb] in Hbuilt;
      [|destruct Hbuilt as [H|[]]; discriminate].
    destruct (existsb truthy signers); [reflexivity|].
    destruct Hbuilt as [H|[]]; discriminate.
  - destruct (on_create_contract_submits _ _ _ _ _ _ _ _ _ _ _ Hbuilt)
      as (file & initiator_address & Hfile & Hkey & Hf).
    exists file, initiator_address. split; [exact Hfile|].
    split; [exact Hkey|]. rewrite Hf. f_equal.
    unfold required_signers_of. cbv zeta.
    rewrite blank_fields_filtered by assumption. reflexivity.
Qed.

(** One signer field holding a space, on the scripted chain. *)
Lemma blank_signer_fields_leave_initiator_alone_witness :
  let file := {| name := py "lease.txt";
                 content := list_byte_of_string "abc" |} in
  exists file' initiator_address,
    Some file = Some file'
    /\ @Account_from_key (Demo.node Demo.quiet) (py "A")
       = inr initiator_address
    /\ createSigningContract (hash_document (content file))
         (upload_to_ipfs (content file) (name file))
         [py "0xA"] false (py "Lease") (py "Document for signing")
       = createSigningContract (hash_document (content file'))
           (upload_to_ipfs (content file') (name file'))
           [initiator_address] false (py "Lease")
           (py "Document for signing").
Proof.
  intros file.
  apply (@blank_signer_fields_leave_initiator_alone (Demo.node Demo.quiet)
           (Demo.config (Some (py "0xF"))) (Some file) (py "A")
           [py " "] (py "Lease") (py "Document for signing") false
           (Demo.start Demo.quiet) (Contract (py "0xF") FACTORY_ABI)
           (createSigningContract (hash_document (content file))
              (upload_to_ipfs (content file) (name file))
              [py "0xA"] false (py "Lease") (py "Document for signing"))
           {| tx_from := py "0xA"; tx_nonce := 0; tx_gas := 3000000;
              tx_gasPrice := 20000000000 |}).
  - reflexivity.
  - vm_compute. right. left. reflexivity.
Defined.

(* ===================================================================== *)
(** * Order of the status reads                                           *)
(* ===================================================================== *)

(** X18: [get_contract_status] reads the contract in one fixed order,
    signatures, fully-signed flag, required signers, progress, status code,
    document hash, pointer, and stops at the first read that fails: the node
    calls of any run are an initial segment of these seven reads on the
    contract object (none if the object cannot be built), and a run that
    returns a snapshot has made all seven. *)
Theorem status_reads_follow_one_order {W3 : Web3} (contract_address : str)
    (s : state) :
  exists n,
    calls (emitted (get_contract_status contract_address) s)
    = firstn n
        match eth_contract contract_address SIGNER_ABI with
        | inr c => calls (read_events c)
        | inl _ => []
        end
    /\ ((exists snapshot,
           outcome (get_contract_status contract_address) s = inr snapshot)
        -> n = 7).
Proof.
  unfold outcome, emitted, get_contract_status, try_except, bind, lift, rpc,
    log_error, emit, raise, ret.
  destruct (eth_contract contract_address SIGNER_ABI) as [e|c].
  { exists 7. split; [reflexivity | reflexivity]. }
  repeat (next_answer; cbn [fst snd app]);
    first
      [ exists 0; split; [reflexivity | intros [? ?]; discriminate]
      | exists 1; split; [reflexivity | intros [? ?]; discriminate]
      | exists 2; split; [reflexivity | intros [? ?]; discriminate]
      | exists 3; split; [reflexivity | intros [? ?]; discriminate]
      | exists 4; split; [reflexivity | intros [? ?]; discriminate]
      | exists 5; split; [reflexivity | intros [? ?]; discriminate]
      | exists 6; split; [reflexivity | intros [? ?]; discriminate]
      | exists 7; split; [reflexivity | intros; reflexivity] ].
Qed.

(** A contract of the scripted chain: seven reads. *)
Lemma status_reads_follow_one_order_witness :
  calls (emitted (@get_contract_status (Demo.node Demo.quiet) (py "0xC1"))
           (Demo.start Demo.quiet))
  = calls (read_events (Contract (py "0xC1") SIGNER_ABI)).
Proof.
  destruct (@status_reads_follow_one_order (Demo.node Demo.quiet)
              (py "0xC1") (Demo.start Demo.quiet)) as (n & Hn & Hfull).
  rewrite Hn, Hfull; [reflexivity|].
  eexists. reflexivity.
Defined.
